(** * gopensky: the OpenSky "all state vectors" client

    A shallow embedding of [gopensky.go] and the properties of its request
    encoder ([serializeQueryParams]) and of its state decoder
    ([deserializeStates], [deserializeState] and the three nil-tolerant
    helpers).

    Go values of type [interface{}] are rendered as the inductive type [any],
    Go run-time panics as the [Panic] outcome of a small error monad, and the
    pieces of the Go standard library the code calls ([strconv.Itoa],
    [fmt.Sprintf "%.4f"], [url.Values], [url.QueryEscape]) as executable
    functions on strings of bytes. *)

From Stdlib Require Import ZArith List Bool Lia.
From Stdlib Require Import Strings.Ascii Strings.String.
From Stdlib Require Import Floats.SpecFloat Numbers.DecimalString.
From Stdlib Require DecimalPos DecimalZ.
Import ListNotations.

Set Warnings "-register-all".

Local Open Scope string_scope.
Local Open Scope list_scope.
Local Open Scope Z_scope.

(** ** The Go run-time model *)

Module Go.

(** [float64]: an IEEE-754 binary64 datum, sign, mantissa and exponent. *)
Definition float64 : Type := spec_float.

Definition prec64 : Z := 53.
Definition emax64 : Z := 1024.

(** The double nearest to [m * 2^e], in canonical form. *)
Definition f64 (m e : Z) : float64 := binary_normalize prec64 emax64 m e false.

Definition is_finite (f : float64) : bool :=
  match f with
  | S754_zero _ | S754_finite _ _ _ => true
  | S754_infinity _ | S754_nan => false
  end.

(** Go's [int] is 64 bits wide on the platforms the library targets. *)
Definition min_int : Z := - 2 ^ 63.
Definition max_int : Z := 2 ^ 63 - 1.

(** Truncation toward zero of a finite float. *)
Definition trunc (f : float64) : option Z :=
  match f with
  | S754_zero _ => Some 0
  | S754_finite s m e =>
      let a := if 0 <=? e then Zpos m * 2 ^ e else Zpos m / 2 ^ (- e) in
      Some (if s then - a else a)
  | S754_infinity _ | S754_nan => None
  end.

(** The conversion [int(f)].  The language leaves the result open when the
    truncated value does not fit; amd64 yields the most negative integer. *)
Definition int_of_float64 (f : float64) : Z :=
  match trunc f with
  | Some z => if (min_int <=? z) && (z <=? max_int) then z else min_int
  | None => min_int
  end.

(** Dynamic types an [interface{}] value can carry in this program. *)
Inductive dyn_type : Type :=
| TNil | TBool | TFloat64 | TString | TSliceAny | TMapAny | TSliceInt.

(** [interface{}] values.  [encoding/json] produces [Nil], [Bool], [Float64],
    [Str], [Slice] and [Map] only; [IntSlice] is the Go type [[]int], which
    [deserializeIntSlice] asserts. *)
Inductive any : Type :=
| Nil
| Bool (b : bool)
| Float64 (f : float64)
| Str (s : string)
| Slice (l : list any)
| Map (m : list (string * any))
| IntSlice (l : list Z).

Definition type_of (v : any) : dyn_type :=
  match v with
  | Nil => TNil
  | Bool _ => TBool
  | Float64 _ => TFloat64
  | Str _ => TString
  | Slice _ => TSliceAny
  | Map _ => TMapAny
  | IntSlice _ => TSliceInt
  end.

(** Values that [json.Decoder.Decode] can store into an [interface{}]. *)
Fixpoint is_json (v : any) : bool :=
  match v with
  | Nil | Bool _ | Str _ => true
  | Float64 f => is_finite f
  | Slice l => forallb is_json l
  | Map m => forallb (fun kv => is_json (snd kv)) m
  | IntSlice _ => false
  end.

(** Run-time panics: a failed single-valued type assertion [x.(T)] and an
    index out of range. *)
Inductive panic : Type :=
| TypeAssertionError (got want : dyn_type)
| IndexOutOfRange (i len : nat).

Inductive result (A : Type) : Type :=
| Ok (a : A)
| Panic (p : panic).
Arguments Ok {A} a.
Arguments Panic {A} p.

Definition bind {A B : Type} (m : result A) (k : A -> result B) : result B :=
  match m with
  | Ok a => k a
  | Panic p => Panic p
  end.

(** [vec[i]] *)
Definition index (vec : list any) (i : nat) : result any :=
  match nth_error vec i with
  | Some v => Ok v
  | None => Panic (IndexOutOfRange i (List.length vec))
  end.

(** [x.(string)], [x.(float64)], [x.(bool)], [x.([]interface{})], [x.([]int)] *)
Definition assert_string (x : any) : result string :=
  match x with Str s => Ok s | _ => Panic (TypeAssertionError (type_of x) TString) end.

Definition assert_float64 (x : any) : result float64 :=
  match x with Float64 f => Ok f | _ => Panic (TypeAssertionError (type_of x) TFloat64) end.

Definition assert_bool (x : any) : result bool :=
  match x with Bool b => Ok b | _ => Panic (TypeAssertionError (type_of x) TBool) end.

Definition assert_slice (x : any) : result (list any) :=
  match x with Slice l => Ok l | _ => Panic (TypeAssertionError (type_of x) TSliceAny) end.

Definition assert_int_slice (x : any) : result (list Z) :=
  match x with IntSlice l => Ok l | _ => Panic (TypeAssertionError (type_of x) TSliceInt) end.

(** [m[key]] on a [map[string]interface{}]: the zero value [nil] when the key
    is absent (and on a nil map). *)
Fixpoint map_index (m : list (string * any)) (key : string) : any :=
  match m with
  | [] => Nil
  | (k, v) :: m' => if String.eqb k key then v else map_index m' key
  end.

End Go.

Import Go.

Notation "x <- m ;; k" := (bind m (fun x => k))
  (at level 61, m at next level, right associativity).

(** ** Data model ([gopensky.go], lines 18-86) *)

Record Bbox : Type := mkBbox {
  Lamin : float64;
  Lomin : float64;
  Lamax : float64;
  Lomax : float64
}.

Record Request : Type := mkRequest {
  req_Time : Z;
  req_Icao24 : list string;
  req_Bbox : option Bbox
}.

Record State : Type := mkState {
  Icao24 : string;
  Callsign : string;
  OriginCountry : string;
  TimePosition : Z;
  LastContact : Z;
  Longitude : float64;
  Latitude : float64;
  BaroAltitude : float64;
  OnGround : bool;
  Velocity : float64;
  TrueTrack : float64;
  VerticalRate : float64;
  Sensors : list Z;
  GeoAltitude : float64;
  Squawk : string;
  Spi : bool;
  PositionSource : Z
}.

Record Response : Type := mkResponse {
  resp_Time : Z;
  resp_States : list State
}.

(** ** The state decoder ([gopensky.go], lines 152-205) *)

Definition deserializeIntSlice (slice : any) : result (list Z) :=
  match slice with
  | Nil => Ok []
  | _ => assert_int_slice slice
  end.

Definition deserializeString (str : any) : result string :=
  match str with
  | Nil => Ok ""
  | _ => assert_string str
  end.

Definition deserializeFloat64 (f64 : any) : result float64 :=
  match f64 with
  | Nil => Ok (S754_zero false)
  | _ => assert_float64 f64
  end.

(** The composite literal evaluates its field expressions from top to bottom;
    the first index or assertion that fails ends the call. *)
Definition deserializeState (state : any) : result State :=
  vec <- assert_slice state ;;
  v0 <- index vec 0 ;; icao24 <- assert_string v0 ;;
  v1 <- index vec 1 ;; callsign <- deserializeString v1 ;;
  v2 <- index vec 2 ;; originCountry <- assert_string v2 ;;
  v3 <- index vec 3 ;; timePosition <- deserializeFloat64 v3 ;;
  v4 <- index vec 4 ;; lastContact <- assert_float64 v4 ;;
  v5 <- index vec 5 ;; longitude <- deserializeFloat64 v5 ;;
  v6 <- index vec 6 ;; latitude <- deserializeFloat64 v6 ;;
  v7 <- index vec 7 ;; baroAltitude <- deserializeFloat64 v7 ;;
  v8 <- index vec 8 ;; onGround <- assert_bool v8 ;;
  v9 <- index vec 9 ;; velocity <- deserializeFloat64 v9 ;;
  v10 <- index vec 10 ;; trueTrack <- deserializeFloat64 v10 ;;
  v11 <- index vec 11 ;; verticalRate <- deserializeFloat64 v11 ;;
  v12 <- index vec 12 ;; sensors <- deserializeIntSlice v12 ;;
  v13 <- index vec 13 ;; geoAltitude <- deserializeFloat64 v13 ;;
  v14 <- index vec 14 ;; squawk <- deserializeString v14 ;;
  v15 <- index vec 15 ;; spi <- assert_bool v15 ;;
  v16 <- index vec 16 ;; positionSource <- assert_float64 v16 ;;
  Ok {| Icao24 := icao24;
        Callsign := callsign;
        OriginCountry := originCountry;
        TimePosition := int_of_float64 timePosition;
        LastContact := int_of_float64 lastContact;
        Longitude := longitude;
        Latitude := latitude;
        BaroAltitude := baroAltitude;
        OnGround := onGround;
        Velocity := velocity;
        TrueTrack := trueTrack;
        VerticalRate := verticalRate;
        Sensors := sensors;
        GeoAltitude := geoAltitude;
        Squawk := squawk;
        Spi := spi;
        PositionSource := int_of_float64 positionSource |}.

(** [states] starts as the empty slice and grows by one decoded state per
    element, in order. *)
Fixpoint deserializeStates_loop (states : list State) (rawStates : list any)
  : result (list State) :=
  match rawStates with
  | [] => Ok states
  | rawState :: rest =>
      s <- deserializeState rawState ;;
      deserializeStates_loop (states ++ [s]) rest
  end.

Definition deserializeStates (rawStates : list any) : result (list State) :=
  deserializeStates_loop [] rawStates.

(** ** Standard-library functions used by the request encoder *)

Module strconv.

(** [strconv.Itoa]: the decimal numeral of an integer, ["-"] first when it
    is negative. *)
Definition Itoa (i : Z) : string := NilZero.string_of_int (Z.to_int i).

End strconv.

Module fmt.

(** Nearest integer to [num / den] ([den > 0]), ties to even: the rounding
    [strconv.FormatFloat] applies to the exact decimal expansion. *)
Definition round_half_even (num den : Z) : Z :=
  let q := num / den in
  match 2 * (num mod den) ?= den with
  | Lt => q
  | Gt => q + 1
  | Eq => if Z.even q then q else q + 1
  end.

(** [|m * 2^e| * 10^4], rounded to an integer. *)
Definition scaled4 (m : positive) (e : Z) : Z :=
  if 0 <=? e then Zpos m * 2 ^ e * 10000
  else round_half_even (Zpos m * 10000) (2 ^ (- e)).

Definition digit (d : Z) : ascii := ascii_of_N (48 + Z.to_N (d mod 10)).

(** The four fractional digits of [n / 10^4]. *)
Definition frac4 (n : Z) : string :=
  String (digit (n / 1000)) (String (digit (n / 100))
    (String (digit (n / 10)) (String (digit n) ""))).

Definition fixed4 (neg : bool) (n : Z) : string :=
  ((if neg then "-" else "") ++ strconv.Itoa (n / 10000) ++ "." ++ frac4 n)%string.

(** [fmt.Sprintf("%.4f", x)] *)
Definition Sprintf_4f (x : float64) : string :=
  match x with
  | S754_nan => "NaN"
  | S754_infinity false => "+Inf"
  | S754_infinity true => "-Inf"
  | S754_zero s => fixed4 s 0
  | S754_finite s m e => fixed4 s (scaled4 m e)
  end.

End fmt.

Module url.

Definition is_alnum (c : ascii) : bool :=
  let n := N_of_ascii c in
  (((48 <=? n) && (n <=? 57)) || ((65 <=? n) && (n <=? 90))
   || ((97 <=? n) && (n <=? 122)))%N.

(** [shouldEscape(c, encodeQueryComponent)]: everything but the unreserved
    characters is escaped. *)
Definition shouldEscape (c : ascii) : bool :=
  if is_alnum c then false
  else if (Ascii.eqb c "-" || Ascii.eqb c "_" || Ascii.eqb c "." || Ascii.eqb c "~")%bool
       then false
       else true.

Definition upperhex (n : N) : ascii :=
  match String.get (N.to_nat n) "0123456789ABCDEF" with
  | Some c => c
  | None => "0"%char
  end.

(** [url.QueryEscape] *)
Fixpoint QueryEscape (s : string) : string :=
  match s with
  | EmptyString => EmptyString
  | String c s' =>
      if Ascii.eqb c " " then String "+" (QueryEscape s')
      else if shouldEscape c then
        String "%" (String (upperhex (N_of_ascii c / 16))
                      (String (upperhex (N_of_ascii c mod 16)) (QueryEscape s')))
      else String c (QueryEscape s')
  end.

Definition unhex (c : ascii) : option N :=
  let n := N_of_ascii c in
  (if (48 <=? n) && (n <=? 57) then Some (n - 48)
   else if (97 <=? n) && (n <=? 102) then Some (n - 97 + 10)
   else if (65 <=? n) && (n <=? 70) then Some (n - 65 + 10)
   else None)%N.

(** [url.QueryUnescape]; [None] is the [EscapeError]. *)
Fixpoint QueryUnescape (s : string) : option string :=
  match s with
  | EmptyString => Some EmptyString
  | String c s' =>
      if Ascii.eqb c "%" then
        match s' with
        | String h (String l s'') =>
            match unhex h, unhex l, QueryUnescape s'' with
            | Some a, Some b, Some r => Some (String (ascii_of_N (a * 16 + b)) r)
            | _, _, _ => None
            end
        | _ => None
        end
      else
        match QueryUnescape s' with
        | Some r => Some (String (if Ascii.eqb c "+" then " "%char else c) r)
        | None => None
        end
  end.

(** [url.Values]: a [map[string][]string]; the keys of the list are unique. *)
Definition Values : Type := list (string * list string).

Fixpoint Get (v : Values) (key : string) : list string :=
  match v with
  | [] => []
  | (k, vs) :: v' => if String.eqb k key then vs else Get v' key
  end.

(** [v.Set(key, value)]: [v[key] = []string{value}] *)
Fixpoint Set_ (v : Values) (key value : string) : Values :=
  match v with
  | [] => [(key, [value])]
  | (k, vs) :: v' =>
      if String.eqb k key then (k, [value]) :: v' else (k, vs) :: Set_ v' key value
  end.

(** [v.Add(key, value)]: [v[key] = append(v[key], value)] *)
Fixpoint Add (v : Values) (key value : string) : Values :=
  match v with
  | [] => [(key, [value])]
  | (k, vs) :: v' =>
      if String.eqb k key then (k, vs ++ [value]) :: v' else (k, vs) :: Add v' key value
  end.

Fixpoint insert_sorted (k : string) (ks : list string) : list string :=
  match ks with
  | [] => [k]
  | k' :: ks' => if String.leb k k' then k :: ks else k' :: insert_sorted k ks'
  end.

(** [slices.Sort(keys)] *)
Definition sort_keys (ks : list string) : list string :=
  fold_right insert_sorted [] ks.

(** One turn of the inner loop of [Encode]: an ["&"] when the buffer already
    holds something, then [key=value]. *)
Definition write_pair (keyEscaped buf value : string) : string :=
  ((if (0 <? String.length buf)%nat then buf ++ "&" else buf)
     ++ keyEscaped ++ "=" ++ QueryEscape value)%string.

(** [v.Encode()]: the pairs in the order of the sorted keys. *)
Definition Encode (v : Values) : string :=
  match v with
  | [] => ""
  | _ =>
      fold_left
        (fun buf k => fold_left (write_pair (QueryEscape k)) (Get v k) buf)
        (sort_keys (map fst v)) ""
  end.

(** Pieces of [s] between occurrences of [sep]. *)
Fixpoint split_on (sep : ascii) (s : string) : list string :=
  match s with
  | EmptyString => [EmptyString]
  | String c s' =>
      if Ascii.eqb c sep then EmptyString :: split_on sep s'
      else match split_on sep s' with
           | seg :: rest => String c seg :: rest
           | [] => [String c EmptyString]
           end
  end.

(** [strings.Cut(s, sep)] without its found flag. *)
Fixpoint cut (sep : ascii) (s : string) : string * string :=
  match s with
  | EmptyString => (EmptyString, EmptyString)
  | String c s' =>
      if Ascii.eqb c sep then (EmptyString, s')
      else let (before, after) := cut sep s' in (String c before, after)
  end.

(** [strings.Contains(s, string(c))] *)
Fixpoint contains (c : ascii) (s : string) : bool :=
  match s with
  | EmptyString => false
  | String c' s' => Ascii.eqb c' c || contains c s'
  end.

(** The still-escaped [key=value] settings of a query, in order: the body of
    the loop of [url.ParseQuery] up to the unescaping. *)
Definition raw_pairs (query : string) : list (string * string) :=
  map (cut "=")
      (filter (fun seg => negb (String.eqb seg "") && negb (contains ";" seg))
              (split_on "&" query)).

(** [url.ParseQuery]: the values found, and whether every setting was
    well-formed. *)
Definition ParseQuery (query : string) : Values * bool :=
  fold_left
    (fun (acc : Values * bool) (kv : string * string) =>
       match QueryUnescape (fst kv), QueryUnescape (snd kv) with
       | Some k, Some v => (Add (fst acc) k v, snd acc)
       | _, _ => (fst acc, false)
       end)
    (raw_pairs query)
    ([], forallb (fun seg => negb (contains ";" seg)) (split_on "&" query)).

End url.

(** ** The request encoder and [Get] ([gopensky.go], lines 12, 96-150) *)

Definition Root : string := "https://opensky-network.org/api".

(** A [url.URL] as far as the program uses one: what [url.Parse] kept of the
    endpoint, and the [RawQuery] field. *)
Record URL : Type := mkURL {
  url_base : string;
  RawQuery : string
}.

Definition URL_String (u : URL) : string :=
  match RawQuery u with
  | EmptyString => url_base u
  | q => (url_base u ++ "?" ++ q)%string
  end.

Definition endpointFor (path : list string) : URL :=
  {| url_base := String.concat "/" (Root :: path); RawQuery := "" |}.

Definition formatDegrees (degrees : float64) : string := fmt.Sprintf_4f degrees.

Definition serializeQueryParams (req : Request) : string :=
  let v : url.Values := [] in
  let v := if req_Time req =? 0 then v
           else url.Set_ v "time" (strconv.Itoa (req_Time req)) in
  let v := fold_left (fun v icao24 => url.Add v "icao24" icao24) (req_Icao24 req) v in
  let v := match req_Bbox req with
           | Some bbox =>
               let v := url.Set_ v "lamin" (formatDegrees (Lamin bbox)) in
               let v := url.Set_ v "lomin" (formatDegrees (Lomin bbox)) in
               let v := url.Set_ v "lamax" (formatDegrees (Lamax bbox)) in
               url.Set_ v "lomax" (formatDegrees (Lomax bbox))
           | None => v
           end in
  url.Encode v.

(** What the HTTP client and the JSON decoder hand back to [Get].
    [BodyInvalid err]: [Decode] returned the error [err] (text that is not
    JSON, a top-level value that is neither an object nor null, a number
    outside float64).  [BodyObject raw]: [Decode] returned nil and left
    [raw]; a body that is the JSON null leaves [raw] without keys. *)
Inductive json_body : Type :=
| BodyInvalid (err : string)
| BodyObject (raw : list (string * any)).

Inductive http_result : Type :=
| TransportError (err : string)
| HttpResponse (StatusCode : Z) (Status : string) (Body : json_body).

(** The two results of [Get]: a response with a nil error, or an error. *)
Inductive get_result : Type :=
| Success (res : Response)
| Failure (err : string).

(** Lines 97-100: the URL requested; [req] is [None] for a nil pointer. *)
Definition Get_url (req : option Request) : URL :=
  let u := endpointFor ["states"; "all"] in
  match req with
  | Some r => {| url_base := url_base u; RawQuery := serializeQueryParams r |}
  | None => u
  end.

(** Lines 114-119: from the decoded body to the response. *)
Definition Get_decode (raw : list (string * any)) : result get_result :=
  rawStates <- assert_slice (map_index raw "states") ;;
  states <- deserializeStates rawStates ;;
  time <- assert_float64 (map_index raw "time") ;;
  Ok (Success {| resp_Time := int_of_float64 time; resp_States := states |}).

(** [http_Get] stands for [a.Http.Get] on a client that is not nil. *)
Definition Get (http_Get : string -> http_result) (req : option Request)
  : result get_result :=
  let u := Get_url req in
  match http_Get (URL_String u) with
  | TransportError err => Ok (Failure err)
  | HttpResponse StatusCode Status Body =>
      if negb (StatusCode =? 200) then
        Ok (Failure ("GET " ++ URL_String u ++ " not OK: " ++ Status)%string)
      else
        match Body with
        | BodyInvalid err => Ok (Failure err)
        | BodyObject raw => Get_decode raw
        end
  end.

(** ** The positional table of a state vector

    Which dynamic type each position is asserted to, and which positions go
    through a nil-tolerant helper.  The decoder is characterised against this
    table below ([deserializeState_spec]). *)

Definition want (i : nat) : dyn_type :=
  match i with
  | 0 | 1 | 2 | 14 => TString
  | 8 | 15 => TBool
  | 12 => TSliceInt
  | _ => TFloat64
  end%nat.

Definition nullable (i : nat) : bool :=
  match i with
  | 1 | 3 | 5 | 6 | 7 | 9 | 10 | 11 | 12 | 13 | 14 => true
  | _ => false
  end%nat.

Definition dyn_type_eqb (a b : dyn_type) : bool :=
  match a, b with
  | TNil, TNil | TBool, TBool | TFloat64, TFloat64 | TString, TString
  | TSliceAny, TSliceAny | TMapAny, TMapAny | TSliceInt, TSliceInt => true
  | _, _ => false
  end.

(** Position [i] takes the value [v] without a fault. *)
Definition accepts (i : nat) (v : any) : bool :=
  match v with
  | Nil => nullable i
  | _ => dyn_type_eqb (type_of v) (want i)
  end.

Definition ok_at (vec : list any) (i : nat) : bool :=
  match nth_error vec i with
  | Some v => accepts i v
  | None => false
  end.

(** The first of the positions 0..16 that is missing or ill-typed. *)
Definition first_bad (vec : list any) : option nat :=
  find (fun i => negb (ok_at vec i)) (seq 0 17).

Definition well_typed (vec : list any) : bool :=
  forallb (ok_at vec) (seq 0 17).

(** The panic raised when position [i] is the first one to fail. *)
Definition fault_at (vec : list any) (i : nat) : panic :=
  match nth_error vec i with
  | Some v => TypeAssertionError (type_of v) (want i)
  | None => IndexOutOfRange i (List.length vec)
  end.

(** The value of each Go type carried by [v], its zero value otherwise. *)
Definition str_of (v : any) : string := match v with Str s => s | _ => "" end.
Definition float_of (v : any) : float64 :=
  match v with Float64 f => f | _ => S754_zero false end.
Definition bool_of (v : any) : bool := match v with Bool b => b | _ => false end.
Definition ints_of (v : any) : list Z := match v with IntSlice l => l | _ => [] end.

Definition decoded (vec : list any) : State :=
  let at_ i := nth i vec Nil in
  {| Icao24 := str_of (at_ 0%nat);
     Callsign := str_of (at_ 1%nat);
     OriginCountry := str_of (at_ 2%nat);
     TimePosition := int_of_float64 (float_of (at_ 3%nat));
     LastContact := int_of_float64 (float_of (at_ 4%nat));
     Longitude := float_of (at_ 5%nat);
     Latitude := float_of (at_ 6%nat);
     BaroAltitude := float_of (at_ 7%nat);
     OnGround := bool_of (at_ 8%nat);
     Velocity := float_of (at_ 9%nat);
     TrueTrack := float_of (at_ 10%nat);
     VerticalRate := float_of (at_ 11%nat);
     Sensors := ints_of (at_ 12%nat);
     GeoAltitude := float_of (at_ 13%nat);
     Squawk := str_of (at_ 14%nat);
     Spi := bool_of (at_ 15%nat);
     PositionSource := int_of_float64 (float_of (at_ 16%nat)) |}.

(** The sample vector of the specification, parameterised by what stands
    at position 12. *)
Definition sample_vector_with (sensors : any) : list any :=
  [ Str "abc123"; Nil; Str "Germany"; Float64 (f64 1 0); Float64 (f64 2 0);
    Float64 (f64 7 (-1)); Float64 (f64 9 (-1)); Float64 (f64 11 (-1));
    Bool false; Float64 (f64 13 (-1)); Float64 (f64 15 (-1));
    Float64 (f64 17 (-1)); sensors; Float64 (f64 19 (-1)); Nil; Bool false;
    Float64 (f64 0 0) ].

Definition sample_vector : list any := sample_vector_with Nil.

(** A helper [h] behaves at position [i] as the table says, returning
    [proj v] on the values it takes. *)
Definition reads_as {A : Type} (h : any -> result A) (proj : any -> A) (i : nat) : Prop :=
  forall v, h v = if accepts i v then Ok (proj v)
                  else Panic (TypeAssertionError (type_of v) (want i)).

(** The positions the table marks "not expected null". *)
Definition not_expected_null : list nat := [0; 2; 4; 8; 15; 16]%nat.

(** The positions whose helper turns nil into a zero value. *)
Definition nil_tolerant : list nat := [1; 3; 5; 6; 7; 9; 10; 11; 12; 13; 14]%nat.

(** [vec] with position [i] overwritten by [v] ([vec] itself when [i] is
    out of range). *)
Definition set_nth (i : nat) (v : any) (vec : list any) : list any :=
  match skipn i vec with
  | [] => vec
  | _ :: tl => firstn i vec ++ v :: tl
  end.

(** ** Sample transports and bodies for [Get] *)

(** A transport that answers every request with status 200 and the decoded
    body [raw]. *)
Definition serve (raw : list (string * any)) : string -> http_result :=
  fun _ => HttpResponse 200 "200 OK" (BodyObject raw).

Definition body_null_states : list (string * any) :=
  [("time", Float64 (f64 1458564121 0)); ("states", Nil)].

Definition body_absent_states : list (string * any) :=
  [("time", Float64 (f64 1458564121 0))].

Definition body_empty_states : list (string * any) :=
  [("time", Float64 (f64 1458564121 0)); ("states", Slice [])].

(** ** Vocabulary for the statements about the encoder *)

Definition is_digit (c : ascii) : bool :=
  let n := N_of_ascii c in ((48 <=? n) && (n <=? 57))%N.

Fixpoint all_digits (s : string) : bool :=
  match s with
  | EmptyString => true
  | String c s' => is_digit c && all_digits s'
  end.

(** One or more digits, a point, exactly four digits. *)
Definition is_unsigned_fixed4 (s : string) : bool :=
  let (int_part, frac_part) := url.cut "." s in
  negb (String.eqb int_part "") && all_digits int_part
  && Nat.eqb (String.length frac_part) 4 && all_digits frac_part.

(** A fixed-point decimal with exactly four digits after the point, with an
    optional minus sign. *)
Definition is_fixed4 (s : string) : bool :=
  match s with
  | String c s' => if Ascii.eqb c "-" then is_unsigned_fixed4 s' else is_unsigned_fixed4 s
  | EmptyString => false
  end.

(** The [key=value] text of one setting. *)
Definition setting (kv : string * string) : string :=
  (fst kv ++ "=" ++ snd kv)%string.

(** The settings [serializeQueryParams] emits, in the order [Encode] writes
    them, values escaped. *)
Definition encoded_pairs (req : Request) : list (string * string) :=
  map (fun icao24 => ("icao24", url.QueryEscape icao24)) (req_Icao24 req)
  ++ match req_Bbox req with
     | Some bbox =>
         [ ("lamax", url.QueryEscape (formatDegrees (Lamax bbox)));
           ("lamin", url.QueryEscape (formatDegrees (Lamin bbox)));
           ("lomax", url.QueryEscape (formatDegrees (Lomax bbox)));
           ("lomin", url.QueryEscape (formatDegrees (Lomin bbox))) ]
     | None => []
     end
  ++ (if req_Time req =? 0 then []
      else [("time", url.QueryEscape (strconv.Itoa (req_Time req)))]).

(** What parsing the query of [req] is expected to give back. *)
Definition expected_values (req : Request) : url.Values :=
  match req_Icao24 req with
  | [] => []
  | l => [("icao24", l)]
  end
  ++ match req_Bbox req with
     | Some bbox =>
         [ ("lamax", [formatDegrees (Lamax bbox)]);
           ("lamin", [formatDegrees (Lamin bbox)]);
           ("lomax", [formatDegrees (Lomax bbox)]);
           ("lomin", [formatDegrees (Lomin bbox)]) ]
     | None => []
     end
  ++ (if req_Time req =? 0 then [] else [("time", [strconv.Itoa (req_Time req)])]).

(** Number of settings of [query] whose text is exactly [s]. *)
Definition count_setting (s : string) (query : string) : nat :=
  count_occ string_dec (url.split_on "&" query) s.

(** Number of settings of [query] whose key is [key]. *)
Definition count_key (key : string) (query : string) : nat :=
  List.length (filter (fun kv => String.eqb (fst kv) key) (url.raw_pairs query)).

Definition sample_request : Request :=
  {| req_Time := 1458564121;
     req_Icao24 := ["abc9f3"; "3c6444"];
     req_Bbox := Some {| Lamin := f64 1 0; Lomin := f64 2 0;
                         Lamax := f64 3 0; Lomax := f64 4 0 |} |}.

(** [Encode] appends one setting to its buffer. *)
Definition wr (buf seg : string) : string :=
  ((if (0 <? String.length buf)%nat then buf ++ "&" else buf) ++ seg)%string.

(** The settings of a [Values], keys sorted, everything escaped. *)
Definition pairs_of (v : url.Values) (keys : list string) : list (string * string) :=
  flat_map (fun k => map (fun x => (url.QueryEscape k, url.QueryEscape x)) (url.Get v k))
           keys.

(** What [QueryEscape] writes for one byte. *)
Definition escape_char (c : ascii) : string := url.QueryEscape (String c "").

(** The bytes of a decimal numeral: digits, minus sign and point. *)
Definition plain (c : ascii) : bool :=
  is_digit c || Ascii.eqb c "-" || Ascii.eqb c ".".

Fixpoint all_plain (s : string) : bool :=
  match s with
  | EmptyString => true
  | String c s' => plain c && all_plain s'
  end.

(** The settings of [req] before escaping. *)
Definition plain_pairs (req : Request) : list (string * string) :=
  map (fun icao24 => ("icao24", icao24)) (req_Icao24 req)
  ++ match req_Bbox req with
     | Some bbox =>
         [ ("lamax", formatDegrees (Lamax bbox));
           ("lamin", formatDegrees (Lamin bbox));
           ("lomax", formatDegrees (Lomax bbox));
           ("lomin", formatDegrees (Lomin bbox)) ]
     | None => []
     end
  ++ (if req_Time req =? 0 then [] else [("time", strconv.Itoa (req_Time req))]).

Definition escape_pair (kv : string * string) : string * string :=
  (url.QueryEscape (fst kv), url.QueryEscape (snd kv)).

(** A setting that [ParseQuery] reads back as written. *)
Definition clean_pair (kv : string * string) : Prop :=
  url.contains "&" (fst kv) = false /\ url.contains "=" (fst kv) = false
  /\ url.contains ";" (fst kv) = false
  /\ url.contains "&" (snd kv) = false /\ url.contains ";" (snd kv) = false.

(** The four bounds of a box with the key each is sent under. *)
Definition bounds_of (bbox : Bbox) : list (string * float64) :=
  [ ("lamin", Lamin bbox); ("lomin", Lomin bbox);
    ("lamax", Lamax bbox); ("lomax", Lomax bbox) ].

(** A request whose box has an infinite lower latitude. *)
Definition unbounded_request : Request :=
  {| req_Time := 0;
     req_Icao24 := [];
     req_Bbox := Some {| Lamin := S754_infinity false; Lomin := f64 2 0;
                         Lamax := f64 3 0; Lomax := f64 4 0 |} |}.

Definition empty_request : Request :=
  {| req_Time := 0; req_Icao24 := []; req_Bbox := None |}.

(** ** Vocabulary for the further properties *)

(** A row of [states] that [deserializeState] takes: an array whose positions
    0..16 are all taken. *)
Definition row_ok (row : any) : bool :=
  match row with
  | Slice vec => well_typed vec
  | _ => false
  end.

(** The State of a row that is taken. *)
Definition decoded_row (row : any) : State :=
  match row with
  | Slice vec => decoded vec
  | _ => decoded []
  end.

(** The URL of the endpoint, without a query. *)
Definition endpoint : string := "https://opensky-network.org/api/states/all".

(** The request sets no filter. *)
Definition no_filter (req : Request) : Prop :=
  req_Time req = 0 /\ req_Icao24 req = [] /\ req_Bbox req = None.

(** The bytes a query can hold: unreserved characters, the two escape marks
    and the two separators. *)
Definition query_byte (c : ascii) : bool :=
  url.is_alnum c
  || Ascii.eqb c "-" || Ascii.eqb c "_" || Ascii.eqb c "." || Ascii.eqb c "~"
  || Ascii.eqb c "+" || Ascii.eqb c "%" || Ascii.eqb c "&" || Ascii.eqb c "=".

Fixpoint all_query_bytes (s : string) : bool :=
  match s with
  | EmptyString => true
  | String c s' => query_byte c && all_query_bytes s'
  end.

(** The keys of the settings of [req], in the order they are written. *)
Definition expected_keys (req : Request) : list string :=
  repeat "icao24" (List.length (req_Icao24 req))
  ++ match req_Bbox req with
     | Some _ => ["lamax"; "lamin"; "lomax"; "lomin"]
     | None => []
     end
  ++ (if req_Time req =? 0 then [] else ["time"]).

(** A 200 answer whose body has two rows, the second with a string where
    the last contact is expected. *)
Definition body_bad_second_row : list (string * any) :=
  [ ("time", Float64 (f64 1458564121 0));
    ("states", Slice [Slice sample_vector;
                      Slice (set_nth 4 (Str "soon") sample_vector)]) ].


(** * Properties of the decoder *)

Lemma bind_ret {A B : Type} (a : A) (k : A -> result B) : bind (Ok a) k = k a.
Proof. reflexivity. Qed.

Lemma assert_string_reads i :
  want i = TString -> nullable i = false -> reads_as assert_string str_of i.
Proof. intros Hw Hn v. unfold accepts. rewrite Hw, Hn. destruct v; reflexivity. Qed.

Lemma assert_float64_reads i :
  want i = TFloat64 -> nullable i = false -> reads_as assert_float64 float_of i.
Proof. intros Hw Hn v. unfold accepts. rewrite Hw, Hn. destruct v; reflexivity. Qed.

Lemma assert_bool_reads i :
  want i = TBool -> nullable i = false -> reads_as assert_bool bool_of i.
Proof. intros Hw Hn v. unfold accepts. rewrite Hw, Hn. destruct v; reflexivity. Qed.

Lemma deserializeString_reads i :
  want i = TString -> nullable i = true -> reads_as deserializeString str_of i.
Proof. intros Hw Hn v. unfold accepts. rewrite Hw, Hn. destruct v; reflexivity. Qed.

Lemma deserializeFloat64_reads i :
  want i = TFloat64 -> nullable i = true -> reads_as deserializeFloat64 float_of i.
Proof. intros Hw Hn v. unfold accepts. rewrite Hw, Hn. destruct v; reflexivity. Qed.

Lemma deserializeIntSlice_reads i :
  want i = TSliceInt -> nullable i = true -> reads_as deserializeIntSlice ints_of i.
Proof. intros Hw Hn v. unfold accepts. rewrite Hw, Hn. destruct v; reflexivity. Qed.

(** Reading one field: the index, then the helper. *)
Lemma field_step {A B : Type} (h : any -> result A) (proj : any -> A) (i : nat)
      (vec : list any) (k : A -> result B) :
  reads_as h proj i ->
  bind (index vec i) (fun v => bind (h v) k)
  = if ok_at vec i then k (proj (nth i vec Nil)) else Panic (fault_at vec i).
Proof.
  intros Hh. unfold index, ok_at, fault_at.
  destruct (nth_error vec i) as [v|] eqn:E; cbn [bind]; [|reflexivity].
  rewrite (nth_error_nth _ _ Nil E), Hh.
  destruct (accepts i v); reflexivity.
Qed.

Ltac read_field lem i :=
  rewrite (field_step _ _ i _ _ (lem i eq_refl eq_refl));
  match goal with
  | |- (if ok_at ?vec ?i then _ else _) = _ =>
      let H := fresh "Hok" in
      destruct (ok_at vec i) eqn:H;
      [ cbv beta
      | unfold first_bad; cbn [seq find];
        repeat match goal with
               | E : ok_at _ _ = _ |- _ => rewrite E; clear E
               end;
        reflexivity ]
  end.

(** The decoder against the table: it faults at the first position that is
    missing or ill-typed, and returns the decoded fields when there is none. *)
Lemma deserializeState_spec (vec : list any) :
  deserializeState (Slice vec)
  = match first_bad vec with
    | Some i => Panic (fault_at vec i)
    | None => Ok (decoded vec)
    end.
Proof.
  unfold deserializeState. cbn [assert_slice]. rewrite bind_ret.
  read_field assert_string_reads 0%nat.
  read_field deserializeString_reads 1%nat.
  read_field assert_string_reads 2%nat.
  read_field deserializeFloat64_reads 3%nat.
  read_field assert_float64_reads 4%nat.
  read_field deserializeFloat64_reads 5%nat.
  read_field deserializeFloat64_reads 6%nat.
  read_field deserializeFloat64_reads 7%nat.
  read_field assert_bool_reads 8%nat.
  read_field deserializeFloat64_reads 9%nat.
  read_field deserializeFloat64_reads 10%nat.
  read_field deserializeFloat64_reads 11%nat.
  read_field deserializeIntSlice_reads 12%nat.
  read_field deserializeFloat64_reads 13%nat.
  read_field deserializeString_reads 14%nat.
  read_field assert_bool_reads 15%nat.
  read_field assert_float64_reads 16%nat.
  unfold first_bad; cbn [seq find].
  repeat match goal with
         | E : ok_at _ _ = _ |- _ => rewrite E; clear E
         end.
  reflexivity.
Qed.

(** ** Facts about [first_bad] *)

Lemma find_seq_Some (f : nat -> bool) (n start i : nat) :
  find f (seq start n) = Some i ->
  (start <= i < start + n)%nat /\ f i = true
  /\ forall j, (start <= j < i)%nat -> f j = false.
Proof.
  revert start. induction n as [|n IH]; intros start H; cbn in H; [discriminate|].
  destruct (f start) eqn:Hf.
  - injection H as <-. repeat split; try lia; trivial.
  - apply IH in H as (Hr & Hi & Hlt). repeat split; try lia; trivial.
    intros j Hj. destruct (Nat.eq_dec j start) as [->|Hne]; trivial.
    apply Hlt. lia.
Qed.

Lemma find_seq_None (f : nat -> bool) (n start : nat) :
  find f (seq start n) = None ->
  forall j, (start <= j < start + n)%nat -> f j = false.
Proof.
  intros H j Hj. apply (find_none f _ H). apply in_seq. exact Hj.
Qed.

Lemma find_seq_first (f : nat -> bool) (n start i : nat) :
  (start <= i < start + n)%nat -> f i = true ->
  (forall j, (start <= j < i)%nat -> f j = false) ->
  find f (seq start n) = Some i.
Proof.
  intros Hr Hi Hlt.
  destruct (find f (seq start n)) as [k|] eqn:E.
  - apply find_seq_Some in E as (Hk & Hfk & Hklt).
    destruct (Nat.lt_trichotomy k i) as [Hlt'|[->|Hgt]]; trivial.
    + rewrite Hlt in Hfk by lia. discriminate.
    + rewrite Hklt in Hi by lia. discriminate.
  - rewrite (find_seq_None f n start E i Hr) in Hi. discriminate.
Qed.

Lemma first_bad_Some (vec : list any) (i : nat) :
  first_bad vec = Some i ->
  (i < 17)%nat /\ ok_at vec i = false /\ forall j, (j < i)%nat -> ok_at vec j = true.
Proof.
  intros H. apply find_seq_Some in H as (Hr & Hi & Hlt).
  repeat split; try lia.
  - now apply negb_true_iff in Hi.
  - intros j Hj. apply negb_false_iff. apply Hlt. lia.
Qed.

Lemma first_bad_intro (vec : list any) (i : nat) :
  (i < 17)%nat -> ok_at vec i = false ->
  (forall j, (j < i)%nat -> ok_at vec j = true) ->
  first_bad vec = Some i.
Proof.
  intros Hi Hbad Hpre. apply find_seq_first; try lia.
  - now rewrite Hbad.
  - intros j Hj. rewrite Hpre by lia. reflexivity.
Qed.

Lemma first_bad_None (vec : list any) :
  first_bad vec = None <-> well_typed vec = true.
Proof.
  unfold well_typed. rewrite forallb_forall. split.
  - intros H j Hj. apply in_seq in Hj.
    apply negb_false_iff. apply (find_seq_None _ _ _ H). exact Hj.
  - intros H. destruct (first_bad vec) as [i|] eqn:E; trivial.
    apply first_bad_Some in E as (Hi & Hbad & _).
    rewrite H in Hbad; [discriminate|]. apply in_seq. lia.
Qed.

Lemma well_typed_length (vec : list any) :
  well_typed vec = true -> (17 <= List.length vec)%nat.
Proof.
  unfold well_typed. rewrite forallb_forall. intros H.
  specialize (H 16%nat). unfold ok_at in H.
  destruct (nth_error vec 16) eqn:E.
  - assert (nth_error vec 16 <> None) as Hn by congruence.
    apply nth_error_Some in Hn. lia.
  - assert (false = true); [|discriminate]. apply H. apply in_seq. lia.
Qed.

Lemma deserializeState_well_typed (vec : list any) :
  well_typed vec = true -> deserializeState (Slice vec) = Ok (decoded vec).
Proof.
  intros H. apply first_bad_None in H.
  rewrite deserializeState_spec, H. reflexivity.
Qed.

(** A call that returns took every one of the 17 positions. *)
Lemma deserializeState_Ok_well_typed (vec : list any) (s : State) :
  deserializeState (Slice vec) = Ok s -> well_typed vec = true /\ s = decoded vec.
Proof.
  rewrite deserializeState_spec. destruct (first_bad vec) eqn:E; [discriminate|].
  intros [= <-]. split; trivial. now apply first_bad_None.
Qed.

Lemma nullable_nil_tolerant (i : nat) :
  (i < 17)%nat -> nullable i = true <-> In i nil_tolerant.
Proof.
  intros Hi. do 17 (destruct i as [|i]; [cbn; intuition (discriminate || lia)|]). lia.
Qed.

Lemma nullable_not_expected_null (i : nat) :
  (i < 17)%nat -> nullable i = false <-> In i not_expected_null.
Proof.
  intros Hi. do 17 (destruct i as [|i]; [cbn; intuition (discriminate || lia)|]). lia.
Qed.

(** [deserializeStates] decodes every row, in order, or none at all. *)
Lemma deserializeStates_loop_Ok (rawStates : list any) (acc states : list State) :
  deserializeStates_loop acc rawStates = Ok states
  <-> exists ds, Forall2 (fun v s => deserializeState v = Ok s) rawStates ds
                 /\ states = acc ++ ds.
Proof.
  revert acc. induction rawStates as [|v l IH]; intros acc; cbn [deserializeStates_loop].
  - split.
    + intros [= <-]. exists []. split; [constructor | now rewrite app_nil_r].
    + intros (ds & Hds & ->). inversion Hds. now rewrite app_nil_r.
  - destruct (deserializeState v) as [s|p] eqn:E; cbn [bind].
    + rewrite IH. split.
      * intros (ds & Hds & ->). exists (s :: ds).
        split; [now constructor | now rewrite <- app_assoc].
      * intros (ds & Hds & ->). inversion Hds as [|? s' ? ds' Hs Hrest]; subst.
        assert (s' = s) as -> by congruence.
        exists ds'. split; [exact Hrest | now rewrite <- app_assoc].
    + split; [discriminate|].
      intros (ds & Hds & _). inversion Hds; subst. congruence.
Qed.

Lemma deserializeStates_Ok (rawStates : list any) (states : list State) :
  deserializeStates rawStates = Ok states
  <-> Forall2 (fun v s => deserializeState v = Ok s) rawStates states.
Proof.
  unfold deserializeStates. rewrite deserializeStates_loop_Ok. split.
  - intros (ds & Hds & ->). exact Hds.
  - intros H. exists states. split; [exact H | reflexivity].
Qed.

Lemma deserializeStates_length (rawStates : list any) (states : list State) :
  deserializeStates rawStates = Ok states ->
  List.length states = List.length rawStates.
Proof.
  intros H. apply deserializeStates_Ok in H. symmetry.
  induction H; cbn; congruence.
Qed.

(** ** The model on concrete inputs *)

Example formatDegrees_12_34 :
  formatDegrees (S754_finite false 6946802425218990 (-49)) = "12.3400".
Proof. reflexivity. Qed.

Example formatDegrees_negative : formatDegrees (S754_finite true 12345 (-3)) = "-1543.1250".
Proof. reflexivity. Qed.

Example formatDegrees_ties_to_even :
  formatDegrees (f64 1 (-5)) = "0.0312" /\ formatDegrees (f64 3 (-5)) = "0.0938".
Proof. split; reflexivity. Qed.

Example formatDegrees_negative_zero : formatDegrees (S754_zero true) = "-0.0000".
Proof. reflexivity. Qed.

Example f64_canonical :
  valid_binary prec64 emax64 (f64 7 (-1)) = true
  /\ f64 7 (-1) = S754_finite false 7881299347898368 (-51).
Proof. split; reflexivity. Qed.

Example Itoa_examples :
  strconv.Itoa 0 = "0" /\ strconv.Itoa (-15) = "-15"
  /\ strconv.Itoa 1458564121 = "1458564121".
Proof. repeat split. Qed.

Example QueryEscape_example : url.QueryEscape "a b&c=d~" = "a+b%26c%3Dd~".
Proof. reflexivity. Qed.

Example serialize_escapes :
  serializeQueryParams
    {| req_Time := -5; req_Icao24 := ["a b&c=d"; ""]; req_Bbox := None |}
  = "icao24=a+b%26c%3Dd&icao24=&time=-5".
Proof. reflexivity. Qed.

Example int_of_float64_examples :
  int_of_float64 (f64 3 (-1)) = 1
  /\ int_of_float64 (S754_finite true 3 (-1)) = -1
  /\ int_of_float64 (f64 1458564121 0) = 1458564121.
Proof. repeat split. Qed.

Example deserializeStates_two :
  exists s, deserializeStates [Slice sample_vector; Slice sample_vector] = Ok [s; s].
Proof. eexists. reflexivity. Qed.

Example Get_not_OK :
  Get (fun _ => HttpResponse 503 "503 Service Unavailable" (BodyInvalid "")) None
  = Ok (Failure
          "GET https://opensky-network.org/api/states/all not OK: 503 Service Unavailable").
Proof. reflexivity. Qed.

Lemma nth_error_set_nth (i j : nat) (v : any) (vec : list any) :
  (i < List.length vec)%nat ->
  nth_error (set_nth i v vec) j = if Nat.eqb j i then Some v else nth_error vec j.
Proof.
  intros Hi. unfold set_nth.
  destruct (skipn i vec) as [|x tl] eqn:E.
  - apply (f_equal (@List.length any)) in E. rewrite length_skipn in E. cbn in E. lia.
  - assert (Hlen : List.length (firstn i vec) = i) by (rewrite length_firstn; lia).
    destruct (Nat.eqb_spec j i) as [->|Hne].
    + rewrite nth_error_app2 by lia. rewrite Hlen, Nat.sub_diag. reflexivity.
    + rewrite <- (firstn_skipn i vec) at 2. rewrite E.
      destruct (Nat.lt_ge_cases j i) as [Hlt|Hge].
      * rewrite !nth_error_app1 by lia. reflexivity.
      * rewrite !nth_error_app2 by lia. rewrite Hlen.
        destruct (j - i)%nat as [|k] eqn:Ek; [lia|]. reflexivity.
Qed.

Lemma set_nth_nil_well_typed (i : nat) (vec : list any) :
  In i nil_tolerant -> well_typed vec = true -> well_typed (set_nth i Nil vec) = true.
Proof.
  intros Hi Hwt. pose proof (well_typed_length vec Hwt) as Hlen.
  assert (Hi17 : (i < 17)%nat) by (cbn in Hi; lia).
  unfold well_typed in *. rewrite forallb_forall in *. intros j Hj.
  unfold ok_at. rewrite nth_error_set_nth by lia.
  destruct (Nat.eqb_spec j i) as [->|Hne].
  - cbn [accepts]. now apply nullable_nil_tolerant.
  - apply (Hwt j Hj).
Qed.

Lemma decoded_nth_error (vec : list any) (i : nat) (v : any) :
  nth_error vec i = Some v -> nth i vec Nil = v.
Proof. intros H. now apply nth_error_nth. Qed.

(** C2: in a 17-element state vector that decodes, a nil at the position of
    callsign, squawk, timePosition, longitude, latitude, baroAltitude,
    velocity, trueTrack, verticalRate or geoAltitude gives the zero value of
    that field; writing nil into such a position of a vector that decodes
    leaves it decoding; and the sample vector of the specification decodes to
    the State it names. *)
Theorem deserializeState_null_to_zero :
  (forall vec, List.length vec = 17%nat -> well_typed vec = true ->
     exists s, deserializeState (Slice vec) = Ok s
       /\ (nth_error vec 1 = Some Nil -> Callsign s = "")
       /\ (nth_error vec 14 = Some Nil -> Squawk s = "")
       /\ (nth_error vec 3 = Some Nil -> TimePosition s = 0)
       /\ (nth_error vec 5 = Some Nil -> Longitude s = S754_zero false)
       /\ (nth_error vec 6 = Some Nil -> Latitude s = S754_zero false)
       /\ (nth_error vec 7 = Some Nil -> BaroAltitude s = S754_zero false)
       /\ (nth_error vec 9 = Some Nil -> Velocity s = S754_zero false)
       /\ (nth_error vec 10 = Some Nil -> TrueTrack s = S754_zero false)
       /\ (nth_error vec 11 = Some Nil -> VerticalRate s = S754_zero false)
       /\ (nth_error vec 13 = Some Nil -> GeoAltitude s = S754_zero false))
  /\ (forall vec i, List.length vec = 17%nat -> well_typed vec = true ->
        In i [1; 3; 5; 6; 7; 9; 10; 11; 13; 14]%nat ->
        exists s, deserializeState (Slice (set_nth i Nil vec)) = Ok s)
  /\ deserializeState (Slice sample_vector)
     = Ok {| Icao24 := "abc123";
             Callsign := "";
             OriginCountry := "Germany";
             TimePosition := 1;
             LastContact := 2;
             Longitude := f64 7 (-1);
             Latitude := f64 9 (-1);
             BaroAltitude := f64 11 (-1);
             OnGround := false;
             Velocity := f64 13 (-1);
             TrueTrack := f64 15 (-1);
             VerticalRate := f64 17 (-1);
             Sensors := [];
             GeoAltitude := f64 19 (-1);
             Squawk := "";
             Spi := false;
             PositionSource := 0 |}.
Proof.
  split; [|split].
  - intros vec _ Hwt. exists (decoded vec).
    split; [now apply deserializeState_well_typed|].
    unfold decoded; cbn [Callsign Squawk TimePosition Longitude Latitude
      BaroAltitude Velocity TrueTrack VerticalRate GeoAltitude].
    repeat split; intros H; rewrite (decoded_nth_error _ _ _ H); reflexivity.
  - intros vec i _ Hwt Hi. exists (decoded (set_nth i Nil vec)).
    apply deserializeState_well_typed, set_nth_nil_well_typed; trivial.
    cbn in Hi |- *. intuition.
  - reflexivity.
Qed.

Lemma deserializeState_null_to_zero_witness :
  exists s, deserializeState (Slice sample_vector) = Ok s
            /\ Callsign s = "" /\ Squawk s = "".
Proof.
  destruct (proj1 deserializeState_null_to_zero sample_vector eq_refl eq_refl)
    as (s & Hs & Hc & Hq & _).
  exists s. split; [exact Hs|]. split; [apply Hc | apply Hq]; reflexivity.
Defined.

(** C3: a 17-element state vector with nil at position 0, 2, 4, 8, 15 or 16
    never decodes to a State: the call ends in a failed type assertion, and
    when every earlier position is taken it is the assertion on that nil. *)
Theorem deserializeState_not_expected_null (vec : list any) (i : nat) :
  List.length vec = 17%nat ->
  In i not_expected_null ->
  nth_error vec i = Some Nil ->
  (exists got wanted,
      deserializeState (Slice vec) = Panic (TypeAssertionError got wanted))
  /\ ((forall j, (j < i)%nat -> ok_at vec j = true) ->
      deserializeState (Slice vec) = Panic (TypeAssertionError TNil (want i))).
Proof.
  intros Hlen Hi Hnil.
  assert (Hi17 : (i < 17)%nat) by (cbn in Hi; lia).
  assert (Hbad : ok_at vec i = false).
  { unfold ok_at. rewrite Hnil. cbn [accepts]. now apply nullable_not_expected_null. }
  rewrite deserializeState_spec. split.
  - destruct (first_bad vec) as [j|] eqn:E.
    + apply first_bad_Some in E as (Hj & _ & _). unfold fault_at.
      destruct (nth_error vec j) as [v|] eqn:Ev; [eauto|].
      apply nth_error_None in Ev. lia.
    + apply first_bad_None in E. unfold well_typed in E.
      rewrite forallb_forall in E. rewrite E in Hbad; [discriminate|].
      apply in_seq. lia.
  - intros Hpre. rewrite (first_bad_intro vec i Hi17 Hbad Hpre).
    unfold fault_at. rewrite Hnil. reflexivity.
Qed.

Lemma deserializeState_not_expected_null_witness :
  (exists got wanted,
      deserializeState (Slice (set_nth 8 Nil sample_vector))
      = Panic (TypeAssertionError got wanted))
  /\ deserializeState (Slice (set_nth 8 Nil sample_vector))
     = Panic (TypeAssertionError TNil TBool).
Proof.
  destruct (deserializeState_not_expected_null (set_nth 8 Nil sample_vector) 8%nat)
    as [H1 H2].
  - reflexivity.
  - cbn. tauto.
  - reflexivity.
  - split; [exact H1|]. apply H2.
    intros j Hj. do 8 (destruct j as [|j]; [reflexivity|]). lia.
Defined.

(** C4 (the code against the claim): nil at position 12 gives the empty
    list, but a JSON array there, which [encoding/json] hands over as
    [[]interface{}], fails the assertion to [[]int]; so does the sample
    vector with sensors [[1, 2]]. *)
Theorem deserializeIntSlice_json_array_faults :
  deserializeIntSlice Nil = Ok []
  /\ (forall l, deserializeIntSlice (Slice l)
                = Panic (TypeAssertionError TSliceAny TSliceInt))
  /\ is_json (Slice [Float64 (f64 1 0); Float64 (f64 2 0)]) = true
  /\ deserializeState
       (Slice (sample_vector_with (Slice [Float64 (f64 1 0); Float64 (f64 2 0)])))
     = Panic (TypeAssertionError TSliceAny TSliceInt)
  /\ (exists s, deserializeState (Slice (sample_vector_with Nil)) = Ok s
                /\ Sensors s = []).
Proof.
  repeat split. eexists. split; reflexivity.
Qed.




Lemma ok_at_firstn (vec : list any) (i : nat) :
  (i < 17)%nat -> ok_at (firstn 17 vec) i = ok_at vec i.
Proof.
  intros Hi. unfold ok_at. rewrite nth_error_firstn.
  destruct (Nat.ltb_spec i 17); [reflexivity|lia].
Qed.

Lemma well_typed_firstn (vec : list any) :
  well_typed (firstn 17 vec) = well_typed vec.
Proof.
  unfold well_typed. apply eq_true_iff_eq. rewrite !forallb_forall.
  split; intros H i Hi; specialize (H i Hi); apply in_seq in Hi;
    [rewrite <- ok_at_firstn by lia | rewrite ok_at_firstn by lia]; exact H.
Qed.

Lemma decoded_firstn (vec : list any) :
  (17 <= List.length vec)%nat -> decoded (firstn 17 vec) = decoded vec.
Proof.
  intros Hlen.
  do 17 (destruct vec as [|? vec]; [cbn in Hlen; lia|]). reflexivity.
Qed.

(** C10: a state vector with more than 17 elements whose first 17 positions
    are taken decodes, and to the State of those 17 positions alone: it
    decodes to the same State as its 17-element prefix and as every other
    vector with that prefix. *)
Theorem deserializeState_ignores_extra (vec : list any) :
  (17 < List.length vec)%nat ->
  well_typed (firstn 17 vec) = true ->
  exists s, deserializeState (Slice vec) = Ok s
    /\ deserializeState (Slice (firstn 17 vec)) = Ok s
    /\ forall vec', firstn 17 vec' = firstn 17 vec ->
                    deserializeState (Slice vec') = Ok s.
Proof.
  intros Hlen Hwt. exists (decoded (firstn 17 vec)).
  assert (Hsame : forall vec', firstn 17 vec' = firstn 17 vec ->
            deserializeState (Slice vec') = Ok (decoded (firstn 17 vec))).
  { intros vec' Hpre.
    assert (Hwt' : well_typed vec' = true)
      by (rewrite <- well_typed_firstn, Hpre; exact Hwt).
    rewrite (deserializeState_well_typed vec' Hwt').
    rewrite <- Hpre, decoded_firstn; [reflexivity|].
    now apply well_typed_length. }
  split; [apply Hsame; reflexivity|].
  split; [|exact Hsame].
  now apply deserializeState_well_typed.
Qed.

Lemma deserializeState_ignores_extra_witness :
  exists s, deserializeState (Slice (sample_vector ++ [Str "extra"; Nil])) = Ok s
    /\ deserializeState (Slice sample_vector) = Ok s.
Proof.
  destruct (deserializeState_ignores_extra (sample_vector ++ [Str "extra"; Nil])
              ltac:(cbn; lia) eq_refl) as (s & H1 & H2 & _).
  exists s. split; [exact H1 | exact H2].
Defined.

(** ** [Get] on a body without states *)

(** C1 (as amended): when the transport answers 200 with a body whose
    [time] is a number, a [states] array of zero elements gives a Response
    with no states and the integer value of [time]; a [states] that is null
    or absent makes the assertion [raw["states"].([]interface{})] fail, and
    no Response is produced. *)
Theorem Get_states_empty_or_nil
    (http_Get : string -> http_result) (req : option Request)
    (status : string) (raw : list (string * any)) (t : float64) :
  http_Get (URL_String (Get_url req)) = HttpResponse 200 status (BodyObject raw) ->
  map_index raw "time" = Float64 t ->
  (map_index raw "states" = Slice [] ->
   Get http_Get req
   = Ok (Success {| resp_Time := int_of_float64 t; resp_States := [] |}))
  /\ (map_index raw "states" = Nil ->
      Get http_Get req = Panic (TypeAssertionError TNil TSliceAny)).
Proof.
  intros Hhttp Htime. unfold Get. rewrite Hhttp. cbn [Z.eqb Pos.eqb negb].
  unfold Get_decode. split; intros Hstates; rewrite Hstates.
  - cbn. rewrite Htime. reflexivity.
  - reflexivity.
Qed.

Lemma Get_states_empty_or_nil_witness :
  Get (serve body_empty_states) None
  = Ok (Success {| resp_Time := 1458564121; resp_States := [] |})
  /\ Get (serve body_null_states) None = Panic (TypeAssertionError TNil TSliceAny).
Proof.
  split.
  - apply (proj1 (Get_states_empty_or_nil (serve body_empty_states) None "200 OK"
                    body_empty_states (f64 1458564121 0) eq_refl eq_refl)).
    reflexivity.
  - apply (proj2 (Get_states_empty_or_nil (serve body_null_states) None "200 OK"
                    body_null_states (f64 1458564121 0) eq_refl eq_refl)).
    reflexivity.
Defined.

(** C1 as stated fails: with [states] null, and with [states] absent, [Get]
    panics instead of returning a Response with an empty state list. *)
Lemma Get_null_states_counterexample :
  map_index body_null_states "states" = Nil
  /\ map_index body_absent_states "states" = Nil
  /\ Get (serve body_null_states) None = Panic (TypeAssertionError TNil TSliceAny)
  /\ Get (serve body_absent_states) None = Panic (TypeAssertionError TNil TSliceAny)
  /\ ~ (exists res, Get (serve body_null_states) None = Ok (Success res)).
Proof.
  repeat split. intros [res H]. discriminate H.
Qed.

(** * Properties of the encoder *)

(** ** Strings *)

Lemma append_nil_r (s : string) : (s ++ "")%string = s.
Proof. induction s as [|c s IH]; cbn; [reflexivity | now rewrite IH]. Qed.

Lemma append_assoc (a b c : string) : ((a ++ b) ++ c = a ++ b ++ c)%string.
Proof. induction a as [|x a IH]; cbn; [reflexivity | now rewrite IH]. Qed.

Lemma contains_app (c : ascii) (a b : string) :
  url.contains c (a ++ b) = url.contains c a || url.contains c b.
Proof.
  induction a as [|x a IH]; cbn; [reflexivity|].
  rewrite IH. now rewrite orb_assoc.
Qed.

Lemma split_on_clean (sep : ascii) (a : string) :
  url.contains sep a = false -> url.split_on sep a = [a].
Proof.
  induction a as [|x a IH]; cbn; [reflexivity|].
  intros H. apply orb_false_iff in H as [Hx Ha].
  rewrite Hx, (IH Ha). reflexivity.
Qed.

Lemma split_on_app (sep : ascii) (a b : string) :
  url.contains sep a = false ->
  url.split_on sep (a ++ String sep b) = a :: url.split_on sep b.
Proof.
  induction a as [|x a IH]; cbn.
  - intros _. now rewrite Ascii.eqb_refl.
  - intros H. apply orb_false_iff in H as [Hx Ha].
    rewrite Hx, (IH Ha). reflexivity.
Qed.

Lemma cut_app (sep : ascii) (a b : string) :
  url.contains sep a = false -> url.cut sep (a ++ String sep b) = (a, b).
Proof.
  induction a as [|x a IH]; cbn.
  - intros _. now rewrite Ascii.eqb_refl.
  - intros H. apply orb_false_iff in H as [Hx Ha].
    rewrite Hx, (IH Ha). reflexivity.
Qed.

(** Splitting what [String.concat] joined gives the pieces back. *)
Lemma split_on_concat (sep : ascii) (segs : list string) :
  segs <> [] ->
  Forall (fun s => url.contains sep s = false) segs ->
  url.split_on sep (String.concat (String sep "") segs) = segs.
Proof.
  induction segs as [|a segs IH]; [congruence|].
  intros _ Hall. inversion Hall as [|? ? Ha Hrest]; subst.
  destruct segs as [|b segs].
  - cbn. now apply split_on_clean.
  - cbn [String.concat]. cbn [append].
    rewrite split_on_app by exact Ha.
    f_equal. apply IH; [congruence | exact Hrest].
Qed.

(** ** [Encode] writes the settings of the sorted keys, joined by ["&"] *)

Lemma write_pair_wr (k buf x : string) :
  url.write_pair k buf x = wr buf (setting (k, url.QueryEscape x)).
Proof. reflexivity. Qed.

Lemma nonempty_length (s : string) : s <> "" -> (0 <? String.length s)%nat = true.
Proof. destruct s; [congruence | reflexivity]. Qed.

Lemma app_nonempty_l (a b : string) : a <> "" -> (a ++ b)%string <> "".
Proof. destruct a; [congruence | discriminate]. Qed.

Lemma app_nonempty_r (a b : string) : b <> "" -> (a ++ b)%string <> "".
Proof. destruct a; [trivial | discriminate]. Qed.

Lemma concat_cons_app (buf s : string) (segs : list string) :
  String.concat "&" ((buf ++ "&" ++ s)%string :: segs)
  = (buf ++ "&" ++ String.concat "&" (s :: segs))%string.
Proof.
  destruct segs as [|x r]; cbn [String.concat]; [reflexivity|].
  now rewrite !append_assoc.
Qed.

Lemma fold_wr_nonempty (segs : list string) (buf : string) :
  buf <> "" ->
  fold_left wr segs buf = String.concat "&" (buf :: segs).
Proof.
  revert buf. induction segs as [|s segs IH]; intros buf Hbuf; [reflexivity|].
  cbn [fold_left]. unfold wr at 2. rewrite (nonempty_length _ Hbuf).
  rewrite append_assoc. rewrite IH by now apply app_nonempty_l.
  rewrite concat_cons_app. reflexivity.
Qed.

Lemma fold_wr (segs : list string) :
  Forall (fun s => s <> "") segs ->
  fold_left wr segs "" = String.concat "&" segs.
Proof.
  destruct segs as [|s segs]; [reflexivity|].
  intros Hall. inversion Hall; subst. cbn [fold_left]. unfold wr at 2. cbn.
  now apply fold_wr_nonempty.
Qed.

Lemma fold_write_pair (k : string) (vs : list string) (buf : string) :
  fold_left (url.write_pair k) vs buf
  = fold_left wr (map (fun x => setting (k, url.QueryEscape x)) vs) buf.
Proof.
  revert buf. induction vs as [|x vs IH]; intros buf; [reflexivity|].
  cbn [fold_left map]. rewrite IH. reflexivity.
Qed.

Lemma fold_keys (v : url.Values) (keys : list string) (buf : string) :
  fold_left (fun buf k => fold_left (url.write_pair (url.QueryEscape k)) (url.Get v k) buf)
            keys buf
  = fold_left wr (map setting (pairs_of v keys)) buf.
Proof.
  revert buf. induction keys as [|k keys IH]; intros buf; [reflexivity|].
  cbn [fold_left]. rewrite IH. unfold pairs_of. cbn [flat_map].
  rewrite map_app, fold_left_app, map_map, fold_write_pair. reflexivity.
Qed.

Lemma setting_nonempty (kv : string * string) : setting kv <> "".
Proof. unfold setting. apply app_nonempty_r. discriminate. Qed.

Lemma Encode_pairs (v : url.Values) :
  url.Encode v
  = String.concat "&" (map setting (pairs_of v (url.sort_keys (map fst v)))).
Proof.
  destruct v as [|kv v]; [reflexivity|].
  unfold url.Encode. rewrite fold_keys. apply fold_wr.
  apply Forall_forall. intros s Hs. apply in_map_iff in Hs as (kv' & <- & _).
  apply setting_nonempty.
Qed.

(** ** The settings [serializeQueryParams] writes *)

Lemma fold_Add_icao24 (pre : url.Values) (l0 l : list string) :
  Forall (fun kv => String.eqb (fst kv) "icao24" = false) pre ->
  fold_left (fun v icao24 => url.Add v "icao24" icao24) l (pre ++ [("icao24", l0)])
  = pre ++ [("icao24", l0 ++ l)].
Proof.
  intros Hpre. revert l0. induction l as [|x l IH]; intros l0.
  - now rewrite app_nil_r.
  - cbn [fold_left].
    assert (Hadd : url.Add (pre ++ [("icao24", l0)]) "icao24" x
                   = pre ++ [("icao24", l0 ++ [x])]).
    { clear IH. induction Hpre as [|[k vs] pre Hk Hpre IH']; [reflexivity|].
      cbn in Hk |- *. rewrite Hk, IH'. reflexivity. }
    rewrite Hadd, IH, <- app_assoc. reflexivity.
Qed.

Lemma fold_Add_icao24_fresh (pre : url.Values) (l : list string) :
  Forall (fun kv => String.eqb (fst kv) "icao24" = false) pre ->
  fold_left (fun v icao24 => url.Add v "icao24" icao24) l pre
  = match l with
    | [] => pre
    | _ => pre ++ [("icao24", l)]
    end.
Proof.
  intros Hpre. destruct l as [|x l]; [reflexivity|].
  cbn [fold_left].
  assert (Hadd : url.Add pre "icao24" x = pre ++ [("icao24", [x])]).
  { induction Hpre as [|[k vs] pre Hk Hpre IH']; [reflexivity|].
    cbn in Hk |- *. rewrite Hk, IH'. reflexivity. }
  rewrite Hadd. now rewrite fold_Add_icao24.
Qed.

Lemma serializeQueryParams_shape (req : Request) :
  serializeQueryParams req = String.concat "&" (map setting (encoded_pairs req)).
Proof.
  destruct req as [t l b]. unfold serializeQueryParams, encoded_pairs.
  cbn [req_Time req_Icao24 req_Bbox].
  destruct (t =? 0); destruct b as [[la lo lA lO]|];
    cbn [url.Set_ Lamin Lomin Lamax Lomax];
    rewrite fold_Add_icao24_fresh by (repeat constructor);
    destruct l as [|x l]; rewrite Encode_pairs; reflexivity.
Qed.

(** ** [QueryEscape], byte by byte *)

Ltac each_byte c := destruct c as [[] [] [] [] [] [] [] []].

Lemma QueryEscape_cons (c : ascii) (s : string) :
  url.QueryEscape (String c s) = (escape_char c ++ url.QueryEscape s)%string.
Proof.
  unfold escape_char. cbn [url.QueryEscape].
  destruct (Ascii.eqb c " "); [reflexivity|].
  destruct (url.shouldEscape c); reflexivity.
Qed.

Lemma QueryUnescape_escape_char (c : ascii) (r : string) :
  url.QueryUnescape (escape_char c ++ r) = option_map (String c) (url.QueryUnescape r).
Proof.
  each_byte c; cbn; destruct (url.QueryUnescape r); reflexivity.
Qed.

(** Unescaping undoes escaping. *)
Lemma QueryUnescape_QueryEscape (s : string) :
  url.QueryUnescape (url.QueryEscape s) = Some s.
Proof.
  induction s as [|c s IH]; [reflexivity|].
  rewrite QueryEscape_cons, QueryUnescape_escape_char, IH. reflexivity.
Qed.

Lemma escape_char_separators (c : ascii) :
  url.contains "&" (escape_char c) = false
  /\ url.contains "=" (escape_char c) = false
  /\ url.contains ";" (escape_char c) = false.
Proof. each_byte c; repeat split. Qed.

(** An escaped string holds none of the separators of a query. *)
Lemma QueryEscape_separators (s : string) :
  url.contains "&" (url.QueryEscape s) = false
  /\ url.contains "=" (url.QueryEscape s) = false
  /\ url.contains ";" (url.QueryEscape s) = false.
Proof.
  induction s as [|c s (IH1 & IH2 & IH3)]; [repeat split|].
  rewrite QueryEscape_cons, !contains_app, IH1, IH2, IH3.
  destruct (escape_char_separators c) as (-> & -> & ->). repeat split.
Qed.

Lemma escape_char_plain (c : ascii) : plain c = true -> escape_char c = String c "".
Proof. each_byte c; intros H; vm_compute in H; try discriminate H; reflexivity. Qed.

(** Decimal numerals pass through [QueryEscape] unchanged. *)
Lemma QueryEscape_plain (s : string) : all_plain s = true -> url.QueryEscape s = s.
Proof.
  induction s as [|c s IH]; [reflexivity|].
  cbn [all_plain]. intros H. apply andb_true_iff in H as [Hc Hs].
  rewrite QueryEscape_cons, (escape_char_plain c Hc), (IH Hs). reflexivity.
Qed.

(** ** Decimal numerals *)

Lemma all_digits_plain (s : string) : all_digits s = true -> all_plain s = true.
Proof.
  induction s as [|c s IH]; [reflexivity|].
  cbn. intros H. apply andb_true_iff in H as [Hc Hs].
  unfold plain. now rewrite Hc, (IH Hs).
Qed.

Lemma all_plain_app (a b : string) :
  all_plain (a ++ b) = all_plain a && all_plain b.
Proof.
  induction a as [|c a IH]; cbn; [reflexivity|]. now rewrite IH, andb_assoc.
Qed.

Lemma string_of_uint_digits (d : Decimal.uint) :
  all_digits (NilEmpty.string_of_uint d) = true.
Proof. induction d; cbn; trivial. Qed.

Lemma NilZero_string_of_uint_digits (d : Decimal.uint) :
  all_digits (NilZero.string_of_uint d) = true /\ NilZero.string_of_uint d <> "".
Proof.
  destruct d; cbn; try (split; [apply string_of_uint_digits | discriminate]).
  split; [reflexivity | discriminate].
Qed.

(** The numeral of a natural number: one or more digits. *)
Lemma Itoa_nonneg (n : Z) :
  0 <= n -> all_digits (strconv.Itoa n) = true /\ strconv.Itoa n <> "".
Proof.
  intros Hn. unfold strconv.Itoa. destruct n as [|p|p]; [| |lia];
    apply NilZero_string_of_uint_digits.
Qed.

Lemma Itoa_plain (n : Z) : all_plain (strconv.Itoa n) = true.
Proof.
  destruct n as [|p|p].
  - reflexivity.
  - apply all_digits_plain, Itoa_nonneg. lia.
  - unfold strconv.Itoa. cbn [Z.to_int NilZero.string_of_int all_plain].
    apply all_digits_plain, NilZero_string_of_uint_digits.
Qed.

Lemma is_digit_digit (d : Z) : is_digit (fmt.digit d) = true.
Proof.
  unfold is_digit, fmt.digit.
  assert (H : 0 <= d mod 10 < 10) by (apply Z.mod_pos_bound; lia).
  rewrite N_ascii_embedding by lia.
  apply andb_true_iff. split; apply N.leb_le; lia.
Qed.

Lemma digit_not_separator (c : ascii) :
  is_digit c = true -> Ascii.eqb c "-" = false /\ Ascii.eqb c "." = false.
Proof. each_byte c; intros H; vm_compute in H; try discriminate H; split; reflexivity. Qed.

Lemma all_digits_no_point (s : string) :
  all_digits s = true -> url.contains "." s = false.
Proof.
  induction s as [|c s IH]; [reflexivity|].
  cbn. intros H. apply andb_true_iff in H as [Hc Hs].
  rewrite (proj2 (digit_not_separator c Hc)), (IH Hs). reflexivity.
Qed.

(** ** [formatDegrees] *)

Lemma round_half_even_nonneg (num den : Z) :
  0 <= num -> 0 < den -> 0 <= fmt.round_half_even num den.
Proof.
  intros Hn Hd. unfold fmt.round_half_even.
  assert (0 <= num / den) by (apply Z.div_pos; lia).
  destruct (2 * (num mod den) ?= den); [destruct (Z.even _)| |]; lia.
Qed.

Lemma scaled4_nonneg (m : positive) (e : Z) : 0 <= fmt.scaled4 m e.
Proof.
  unfold fmt.scaled4. destruct (Z.leb_spec 0 e).
  - assert (0 <= 2 ^ e) by (apply Z.pow_nonneg; lia). nia.
  - apply round_half_even_nonneg; [lia|]. apply Z.pow_pos_nonneg; lia.
Qed.

Lemma is_unsigned_fixed4_intro (n : Z) :
  0 <= n -> is_unsigned_fixed4 (strconv.Itoa (n / 10000) ++ "." ++ fmt.frac4 n) = true.
Proof.
  intros Hn.
  destruct (Itoa_nonneg (n / 10000)) as [Hd Hne]; [apply Z.div_pos; lia|].
  unfold is_unsigned_fixed4. cbn [append].
  rewrite cut_app by now apply all_digits_no_point.
  rewrite Hd. unfold fmt.frac4. cbn [String.length Nat.eqb all_digits].
  rewrite !is_digit_digit.
  destruct (String.eqb_spec (strconv.Itoa (n / 10000)) ""); [contradiction|reflexivity].
Qed.

Lemma is_fixed4_fixed4 (neg : bool) (n : Z) :
  0 <= n -> is_fixed4 (fmt.fixed4 neg n) = true.
Proof.
  intros Hn. pose proof (is_unsigned_fixed4_intro n Hn) as H.
  unfold fmt.fixed4. destruct neg; cbn [append]; [exact H|].
  destruct (Itoa_nonneg (n / 10000)) as [Hd Hne]; [apply Z.div_pos; lia|].
  destruct (strconv.Itoa (n / 10000)) as [|c s] eqn:E; [contradiction|].
  cbn [append is_fixed4]. cbn [all_digits] in Hd.
  apply andb_true_iff in Hd as [Hc _].
  rewrite (proj1 (digit_not_separator c Hc)). exact H.
Qed.

(** A finite bound is written as a fixed-point decimal with four digits
    after the point. *)
Lemma formatDegrees_fixed4 (x : float64) :
  is_finite x = true -> is_fixed4 (formatDegrees x) = true.
Proof.
  destruct x as [s|s| |s m e]; cbn [is_finite]; try discriminate; intros _;
    unfold formatDegrees, fmt.Sprintf_4f; apply is_fixed4_fixed4;
    [lia | apply scaled4_nonneg].
Qed.

Lemma fixed4_plain (neg : bool) (n : Z) : 0 <= n -> all_plain (fmt.fixed4 neg n) = true.
Proof.
  intros Hn. unfold fmt.fixed4.
  destruct (Itoa_nonneg (n / 10000)) as [Hd _]; [apply Z.div_pos; lia|].
  rewrite !all_plain_app, (all_digits_plain _ Hd).
  unfold fmt.frac4. cbn [all_plain]. unfold plain. rewrite !is_digit_digit.
  destruct neg; reflexivity.
Qed.

Lemma formatDegrees_plain (x : float64) :
  is_finite x = true -> url.QueryEscape (formatDegrees x) = formatDegrees x.
Proof.
  intros Hx. apply QueryEscape_plain.
  destruct x as [s|s| |s m e]; cbn [is_finite] in Hx; try discriminate;
    unfold formatDegrees, fmt.Sprintf_4f; apply fixed4_plain;
    [lia | apply scaled4_nonneg].
Qed.

(** ** Reading a query back *)

Lemma contains_setting (c : ascii) (kv : string * string) :
  url.contains c (setting kv)
  = url.contains c (fst kv) || (Ascii.eqb "=" c || url.contains c (snd kv)).
Proof. unfold setting. rewrite contains_app. reflexivity. Qed.

Lemma escape_pair_clean (kv : string * string) : clean_pair (escape_pair kv).
Proof.
  unfold clean_pair, escape_pair. cbn [fst snd].
  destruct (QueryEscape_separators (fst kv)) as (? & ? & ?).
  destruct (QueryEscape_separators (snd kv)) as (? & ? & ?).
  repeat split; assumption.
Qed.

Lemma filter_all {A : Type} (f : A -> bool) (l : list A) :
  Forall (fun x => f x = true) l -> filter f l = l.
Proof.
  induction 1 as [|x l Hx _ IH]; [reflexivity|]. cbn. now rewrite Hx, IH.
Qed.

Lemma split_on_settings (ps : list (string * string)) :
  ps <> [] -> Forall clean_pair ps ->
  url.split_on "&" (String.concat "&" (map setting ps)) = map setting ps.
Proof.
  intros Hne Hall. apply split_on_concat.
  - destruct ps; [congruence | discriminate].
  - apply Forall_map. eapply Forall_impl; [|exact Hall].
    intros kv (H1 & _ & _ & H4 & _). rewrite contains_setting, H1, H4. reflexivity.
Qed.

Lemma raw_pairs_settings (ps : list (string * string)) :
  Forall clean_pair ps ->
  url.raw_pairs (String.concat "&" (map setting ps)) = ps.
Proof.
  intros Hall. unfold url.raw_pairs.
  destruct ps as [|kv ps]; [reflexivity|].
  rewrite split_on_settings by (congruence || assumption).
  rewrite filter_all.
  - rewrite map_map. rewrite <- (map_id (kv :: ps)) at 2.
    apply map_ext_in. intros [k v] Hin.
    rewrite Forall_forall in Hall. destruct (Hall _ Hin) as (_ & H2 & _).
    unfold setting. cbn [fst snd append] in *. now apply cut_app.
  - apply Forall_map. eapply Forall_impl; [|exact Hall].
    intros kv' (_ & _ & H3 & _ & H5).
    rewrite contains_setting, H3, H5. cbn [orb Ascii.eqb Bool.eqb negb andb].
    destruct (String.eqb_spec (setting kv') "") as [E|_]; [|reflexivity].
    now apply setting_nonempty in E.
Qed.

Lemma no_semicolon_settings (ps : list (string * string)) :
  Forall clean_pair ps ->
  forallb (fun seg => negb (url.contains ";" seg))
          (url.split_on "&" (String.concat "&" (map setting ps))) = true.
Proof.
  intros Hall. destruct ps as [|kv ps]; [reflexivity|].
  rewrite split_on_settings by (congruence || assumption).
  apply forallb_forall. intros seg Hin.
  apply in_map_iff in Hin as (kv' & <- & Hin).
  rewrite Forall_forall in Hall. destruct (Hall _ Hin) as (_ & _ & H3 & _ & H5).
  rewrite contains_setting, H3, H5. reflexivity.
Qed.

(** Parsing escaped settings adds each of them, unescaped, in order. *)
Lemma ParseQuery_settings (ps : list (string * string)) :
  url.ParseQuery (String.concat "&" (map setting (map escape_pair ps)))
  = (fold_left (fun v kv => url.Add v (fst kv) (snd kv)) ps [], true).
Proof.
  assert (Hclean : Forall clean_pair (map escape_pair ps)).
  { apply Forall_map, Forall_forall. intros kv _. apply escape_pair_clean. }
  unfold url.ParseQuery.
  rewrite (raw_pairs_settings _ Hclean), (no_semicolon_settings _ Hclean).
  clear Hclean.
  generalize (@nil (string * list string)) as v. generalize true as ok.
  induction ps as [|[k x] ps IH]; intros ok v; [reflexivity|].
  cbn [map fold_left escape_pair fst snd].
  rewrite !QueryUnescape_QueryEscape. apply IH.
Qed.

Lemma encoded_pairs_escape (req : Request) :
  encoded_pairs req = map escape_pair (plain_pairs req).
Proof.
  unfold encoded_pairs, plain_pairs. rewrite !map_app, map_map.
  destruct (req_Bbox req); destruct (req_Time req =? 0); reflexivity.
Qed.

Lemma fold_Add_plain_pairs (req : Request) :
  fold_left (fun v kv => url.Add v (fst kv) (snd kv)) (plain_pairs req) []
  = expected_values req.
Proof.
  unfold plain_pairs, expected_values. rewrite !fold_left_app.
  assert (Hicao : forall l v,
             fold_left (fun v kv => url.Add v (fst kv) (snd kv))
                       (map (fun icao24 => ("icao24", icao24)) l) v
             = fold_left (fun v icao24 => url.Add v "icao24" icao24) l v).
  { induction l as [|x l IH]; intros v; [reflexivity|]. cbn. apply IH. }
  rewrite Hicao, fold_Add_icao24_fresh by constructor.
  destruct (req_Icao24 req) as [|x l]; destruct (req_Bbox req) as [b|];
    destruct (req_Time req =? 0); reflexivity.
Qed.

(** Round trip: parsing the query of any request gives back its transponder
    addresses in order, the text of its four bounds and of its time. *)
Lemma ParseQuery_serializeQueryParams (req : Request) :
  url.ParseQuery (serializeQueryParams req) = (expected_values req, true).
Proof.
  rewrite serializeQueryParams_shape, encoded_pairs_escape, ParseQuery_settings.
  now rewrite fold_Add_plain_pairs.
Qed.

(** * The claims about the encoder *)

(** C6: a request with [Time] 0, no [Icao24] and no [Bbox] is encoded as the
    empty query string, and [Get] leaves the query empty for a nil request
    as well. *)
Theorem serializeQueryParams_empty (req : Request) :
  req_Time req = 0 -> req_Icao24 req = [] -> req_Bbox req = None ->
  serializeQueryParams req = ""
  /\ RawQuery (Get_url (Some req)) = ""
  /\ RawQuery (Get_url None) = "".
Proof.
  intros Ht Hl Hb.
  assert (H : serializeQueryParams req = "").
  { unfold serializeQueryParams. rewrite Ht, Hl, Hb. reflexivity. }
  cbn [Get_url RawQuery endpointFor]. rewrite H. repeat split.
Qed.

Lemma serializeQueryParams_empty_witness :
  serializeQueryParams empty_request = ""
  /\ RawQuery (Get_url (Some empty_request)) = ""
  /\ RawQuery (Get_url None) = "".
Proof.
  apply (serializeQueryParams_empty empty_request); reflexivity.
Defined.

Lemma encoded_pairs_clean (req : Request) : Forall clean_pair (encoded_pairs req).
Proof.
  rewrite encoded_pairs_escape. apply Forall_map, Forall_forall.
  intros kv _. apply escape_pair_clean.
Qed.

Lemma raw_pairs_serializeQueryParams (req : Request) :
  url.raw_pairs (serializeQueryParams req) = encoded_pairs req.
Proof.
  rewrite serializeQueryParams_shape. apply raw_pairs_settings, encoded_pairs_clean.
Qed.

(** The settings of the query, as the text between the ["&"]. *)
Lemma split_on_serializeQueryParams (req : Request) :
  encoded_pairs req <> [] ->
  url.split_on "&" (serializeQueryParams req) = map setting (encoded_pairs req).
Proof.
  intros Hne. rewrite serializeQueryParams_shape.
  apply split_on_settings; [exact Hne | apply encoded_pairs_clean].
Qed.

Lemma count_key_icao24 (key : string) (l : list string) :
  String.eqb "icao24" key = false ->
  filter (fun kv : string * string => String.eqb (fst kv) key)
         (map (fun icao24 => ("icao24", url.QueryEscape icao24)) l) = [].
Proof.
  intros Hk. induction l as [|x l IH]; [reflexivity|].
  cbn [map filter fst]. now rewrite Hk.
Qed.

Lemma count_occ_icao24 (s : string) (l : list string) :
  (forall r, s <> String "i" r) ->
  count_occ string_dec
    (map setting (map (fun icao24 => ("icao24", url.QueryEscape icao24)) l)) s = 0%nat.
Proof.
  intros Hs. induction l as [|x l IH]; [reflexivity|].
  cbn [map]. rewrite count_occ_cons_neq; [exact IH|].
  unfold setting. cbn. intros E. symmetry in E. now apply Hs in E.
Qed.

Lemma time_setting (t : Z) :
  setting ("time", url.QueryEscape (strconv.Itoa t)) = ("time=" ++ strconv.Itoa t)%string.
Proof. rewrite QueryEscape_plain by apply Itoa_plain. reflexivity. Qed.

(** C7: for a non-zero [Time], negative ones included, exactly one setting
    of the query has the key [time], its text is [time=<Time>], and parsing
    the query gives that one value; for [Time] 0 no setting has the key
    [time]. *)
Theorem serializeQueryParams_time (req : Request) :
  (req_Time req <> 0 ->
   count_setting ("time=" ++ strconv.Itoa (req_Time req)) (serializeQueryParams req) = 1%nat
   /\ count_key "time" (serializeQueryParams req) = 1%nat
   /\ url.Get (fst (url.ParseQuery (serializeQueryParams req))) "time"
      = [strconv.Itoa (req_Time req)])
  /\ (req_Time req = 0 ->
      count_key "time" (serializeQueryParams req) = 0%nat
      /\ url.Get (fst (url.ParseQuery (serializeQueryParams req))) "time" = []).
Proof.
  unfold count_key, count_setting.
  rewrite raw_pairs_serializeQueryParams, ParseQuery_serializeQueryParams.
  cbn [fst]. split; intros Ht.
  - apply Z.eqb_neq in Ht.
    assert (Hne : encoded_pairs req <> []).
    { unfold encoded_pairs. rewrite Ht. intros E.
      apply app_eq_nil in E as [_ E]. apply app_eq_nil in E as [_ E]. discriminate. }
    rewrite (split_on_serializeQueryParams req Hne).
    unfold encoded_pairs, expected_values. rewrite Ht.
    rewrite !map_app, !count_occ_app, !filter_app, !length_app.
    rewrite count_occ_icao24 by discriminate.
    rewrite count_key_icao24 by reflexivity.
    cbn [map]. rewrite time_setting.
    repeat split.
    + destruct (req_Bbox req); cbn [map count_occ];
        repeat (destruct (string_dec _ _) as [E|_]; [discriminate E|]);
        try (destruct (string_dec _ _) as [_|E]; [|contradiction]); reflexivity.
    + destruct (req_Bbox req); reflexivity.
    + destruct (req_Icao24 req); destruct (req_Bbox req); reflexivity.
  - unfold encoded_pairs, expected_values. rewrite Ht. cbn [Z.eqb].
    rewrite !filter_app, !length_app, count_key_icao24 by reflexivity.
    split.
    + destruct (req_Bbox req); reflexivity.
    + destruct (req_Icao24 req); destruct (req_Bbox req); reflexivity.
Qed.

Lemma serializeQueryParams_time_witness :
  count_setting "time=-5" "icao24=abc9f3&time=-5" = 1%nat
  /\ count_key "time" (serializeQueryParams empty_request) = 0%nat.
Proof.
  split.
  - apply (proj1 (serializeQueryParams_time
                    {| req_Time := -5; req_Icao24 := ["abc9f3"]; req_Bbox := None |})).
    cbn. discriminate.
  - apply (proj2 (serializeQueryParams_time empty_request)). reflexivity.
Defined.

Lemma bbox_settings_in (req : Request) (bbox : Bbox) (kv : string * string) :
  req_Bbox req = Some bbox ->
  In kv [ ("lamax", url.QueryEscape (formatDegrees (Lamax bbox)));
          ("lamin", url.QueryEscape (formatDegrees (Lamin bbox)));
          ("lomax", url.QueryEscape (formatDegrees (Lomax bbox)));
          ("lomin", url.QueryEscape (formatDegrees (Lomin bbox))) ] ->
  In (setting kv) (url.split_on "&" (serializeQueryParams req)).
Proof.
  intros Hb Hin.
  assert (Hpairs : In kv (encoded_pairs req)).
  { unfold encoded_pairs. rewrite Hb. apply in_or_app. right.
    apply in_or_app. left. exact Hin. }
  rewrite split_on_serializeQueryParams.
  - now apply in_map.
  - intros E. rewrite E in Hpairs. contradiction.
Qed.

Lemma Get_expected_bounds (req : Request) (bbox : Bbox) (key : string) (x : float64) :
  req_Bbox req = Some bbox -> In (key, x) (bounds_of bbox) ->
  url.Get (expected_values req) key = [formatDegrees x].
Proof.
  intros Hb Hin. unfold expected_values. rewrite Hb.
  cbn in Hin.
  destruct Hin as [E|[E|[E|[E|[]]]]]; injection E as <- <-;
    destruct (req_Icao24 req); reflexivity.
Qed.

(** C8 (as amended): when a [Bbox] is present, each bound that is a finite
    number is written under its key as a fixed-point decimal with exactly
    four digits after the point, whatever its size and sign; parsing the
    query gives back that text; and 1.5 is written [1.5000]. *)
Theorem serializeQueryParams_bbox_fixed4
    (req : Request) (bbox : Bbox) (key : string) (x : float64) :
  req_Bbox req = Some bbox ->
  In (key, x) (bounds_of bbox) ->
  is_finite x = true ->
  In (key ++ "=" ++ formatDegrees x)%string (url.split_on "&" (serializeQueryParams req))
  /\ is_fixed4 (formatDegrees x) = true
  /\ url.Get (fst (url.ParseQuery (serializeQueryParams req))) key = [formatDegrees x]
  /\ formatDegrees (f64 3 (-1)) = "1.5000".
Proof.
  intros Hb Hin Hfin. repeat split.
  - change (key ++ "=" ++ formatDegrees x)%string with (setting (key, formatDegrees x)).
    rewrite <- (formatDegrees_plain x Hfin).
    apply (bbox_settings_in req bbox); [exact Hb|].
    cbn in Hin |- *.
    destruct Hin as [E|[E|[E|[E|[]]]]]; injection E as <- <-; tauto.
  - now apply formatDegrees_fixed4.
  - rewrite ParseQuery_serializeQueryParams. cbn [fst].
    now apply (Get_expected_bounds req bbox).
Qed.

Lemma serializeQueryParams_bbox_fixed4_witness :
  In "lomin=2.0000" (url.split_on "&" (serializeQueryParams sample_request))
  /\ is_fixed4 "2.0000" = true.
Proof.
  destruct (serializeQueryParams_bbox_fixed4 sample_request
              {| Lamin := f64 1 0; Lomin := f64 2 0; Lamax := f64 3 0; Lomax := f64 4 0 |}
              "lomin" (f64 2 0) eq_refl ltac:(cbn; tauto) eq_refl)
    as (H1 & H2 & _).
  split; [exact H1 | exact H2].
Defined.

(** C8 as stated fails: an infinite bound is written [+Inf], which reaches
    the query as [%2BInf]; no setting with the key [lamin] carries a
    four-digit decimal. *)
Lemma serializeQueryParams_bbox_counterexample :
  req_Bbox unbounded_request
  = Some {| Lamin := S754_infinity false; Lomin := f64 2 0;
            Lamax := f64 3 0; Lomax := f64 4 0 |}
  /\ formatDegrees (S754_infinity false) = "+Inf"
  /\ serializeQueryParams unbounded_request
     = "lamax=3.0000&lamin=%2BInf&lomax=4.0000&lomin=2.0000"
  /\ is_fixed4 "+Inf" = false
  /\ existsb (fun kv => String.eqb (fst kv) "lamin" && is_fixed4 (snd kv))
             (url.raw_pairs (serializeQueryParams unbounded_request)) = false
  /\ ~ (forall key x, In (key, x) [("lamin", S754_infinity false)] ->
          is_fixed4 (formatDegrees x) = true).
Proof.
  repeat split. intros H. specialize (H "lamin" (S754_infinity false) (or_introl eq_refl)).
  discriminate H.
Qed.

(** C9: the query of the sample request, parsed, gives back both [icao24]
    values in order, the four bounds and the time; and so does the query of
    every request: one [icao24] value for each address, duplicates kept. *)
Theorem serializeQueryParams_round_trip :
  serializeQueryParams sample_request
  = "icao24=abc9f3&icao24=3c6444&lamax=3.0000&lamin=1.0000&lomax=4.0000&lomin=2.0000&time=1458564121"
  /\ url.ParseQuery (serializeQueryParams sample_request)
     = ([ ("icao24", ["abc9f3"; "3c6444"]);
          ("lamax", ["3.0000"]); ("lamin", ["1.0000"]);
          ("lomax", ["4.0000"]); ("lomin", ["2.0000"]);
          ("time", ["1458564121"]) ], true)
  /\ count_key "icao24" (serializeQueryParams sample_request) = 2%nat
  /\ option_map Z.of_int (NilZero.int_of_string "1458564121") = Some (req_Time sample_request)
  /\ (forall req, url.ParseQuery (serializeQueryParams req) = (expected_values req, true))
  /\ (forall req,
        url.Get (fst (url.ParseQuery (serializeQueryParams req))) "icao24"
        = req_Icao24 req).
Proof.
  repeat split.
  - apply ParseQuery_serializeQueryParams.
  - intros req. rewrite ParseQuery_serializeQueryParams. cbn [fst].
    unfold expected_values.
    destruct (req_Icao24 req); destruct (req_Bbox req);
      destruct (req_Time req =? 0); reflexivity.
Qed.

(** * Further properties of the decoder *)

Lemma deserializeState_row (row : any) (s : State) :
  deserializeState row = Ok s <-> row_ok row = true /\ s = decoded_row row.
Proof.
  destruct row as [| | | |vec| |];
    try (split; [intros H; discriminate H | intros [H _]; discriminate H]).
  cbn [row_ok decoded_row]. split.
  - apply deserializeState_Ok_well_typed.
  - intros [Hwt ->]. now apply deserializeState_well_typed.
Qed.

Lemma deserializeState_row_fault (row : any) :
  row_ok row = false -> exists p, deserializeState row = Panic p.
Proof.
  intros Hbad. destruct (deserializeState row) as [s|p] eqn:E; [|eauto].
  apply deserializeState_row in E as [E _]. congruence.
Qed.

Lemma deserializeStates_loop_bind (rawStates : list any) (acc : list State) :
  deserializeStates_loop acc rawStates
  = (ss <- deserializeStates rawStates ;; Ok (acc ++ ss)).
Proof.
  revert acc. induction rawStates as [|v l IH]; intros acc.
  - cbn. now rewrite app_nil_r.
  - unfold deserializeStates. cbn [deserializeStates_loop].
    destruct (deserializeState v) as [s|p]; cbn [bind]; [|reflexivity].
    rewrite (IH (acc ++ [s])), (IH ([] ++ [s])).
    destruct (deserializeStates l) as [ss|p]; cbn [bind]; [|reflexivity].
    now rewrite <- app_assoc.
Qed.

Lemma deserializeStates_cons (v : any) (l : list any) :
  deserializeStates (v :: l)
  = (s <- deserializeState v ;; ss <- deserializeStates l ;; Ok (s :: ss)).
Proof.
  unfold deserializeStates at 1. cbn [deserializeStates_loop].
  destruct (deserializeState v) as [s|p]; cbn [bind]; [|reflexivity].
  now rewrite deserializeStates_loop_bind.
Qed.

Lemma deserializeStates_rows (rows : list any) (states : list State) :
  deserializeStates rows = Ok states
  <-> forallb row_ok rows = true /\ states = map decoded_row rows.
Proof.
  revert states. induction rows as [|v l IH]; intros states.
  - cbn. split; [intros [= <-]; auto | intros [_ ->]; reflexivity].
  - rewrite deserializeStates_cons. cbn [forallb map].
    destruct (deserializeState v) as [s|p] eqn:E; cbn [bind].
    + apply deserializeState_row in E as [Hv ->]. rewrite Hv. cbn [andb].
      destruct (deserializeStates l) as [ss|p] eqn:El; cbn [bind].
      * destruct (proj1 (IH ss) eq_refl) as [Hl ->]. rewrite Hl.
        split; [intros [= <-]; auto | intros [_ ->]; reflexivity].
      * split; [discriminate|]. intros [Hl _].
        assert (Panic p = Ok (map decoded_row l)) as Habs
            by (apply IH; auto).
        discriminate Habs.
    + split; [discriminate|]. intros [H _].
      apply andb_true_iff in H as [Hv _].
      assert (deserializeState v = Ok (decoded_row v)) as Habs
          by (apply deserializeState_row; auto).
      congruence.
Qed.

Lemma deserializeStates_fault (rows : list any) (p : panic) :
  deserializeStates rows = Panic p
  <-> exists pre row post,
        rows = pre ++ row :: post /\ forallb row_ok pre = true
        /\ deserializeState row = Panic p.
Proof.
  induction rows as [|v l IH].
  - cbn. split; [discriminate|].
    intros (pre & row & post & H & _). destruct pre; discriminate H.
  - rewrite deserializeStates_cons.
    destruct (deserializeState v) as [s|q] eqn:E; cbn [bind].
    + apply deserializeState_row in E as [Hv ->].
      destruct (deserializeStates l) as [ss|q] eqn:El; cbn [bind].
      * split; [discriminate|].
        intros (pre & row & post & H & Hpre & Hrow).
        destruct pre as [|v' pre]; cbn in H; injection H as -> ->.
        -- assert (deserializeState row = Ok (decoded_row row)) as Habs
               by (apply deserializeState_row; auto).
           congruence.
        -- cbn in Hpre. apply andb_true_iff in Hpre as [_ Hpre].
           assert (Ok ss = Panic p) as Habs by (apply IH; eauto 6).
           discriminate Habs.
      * split.
        -- intros [= ->]. destruct (proj1 IH eq_refl) as (pre & row & post & -> & Hpre & Hrow).
           exists (v :: pre), row, post. cbn. rewrite Hv, Hpre. auto.
        -- intros (pre & row & post & H & Hpre & Hrow).
           destruct pre as [|v' pre]; cbn in H; injection H as -> ->.
           ++ assert (deserializeState row = Ok (decoded_row row)) as Habs
                  by (apply deserializeState_row; auto).
              congruence.
           ++ cbn in Hpre. apply andb_true_iff in Hpre as [_ Hpre].
              apply IH. eauto 6.
    + split.
      * intros [= ->]. exists [], v, l. auto.
      * intros (pre & row & post & H & Hpre & Hrow).
        destruct pre as [|v' pre]; cbn in H; injection H as -> ->.
        -- congruence.
        -- cbn in Hpre. apply andb_true_iff in Hpre as [Hv _].
           assert (deserializeState v' = Ok (decoded_row v')) as Habs
               by (apply deserializeState_row; auto).
           congruence.
Qed.

(** X1: [deserializeState] returns a State exactly when every position 0..16
    of the vector exists and holds a value of the asserted type, or nil where
    a nil-tolerant helper reads it; the State then holds those values, with
    the zero value for each nil. *)
Theorem deserializeState_returns_iff (vec : list any) (s : State) :
  deserializeState (Slice vec) = Ok s
  <-> well_typed vec = true /\ s = decoded vec.
Proof.
  split.
  - apply deserializeState_Ok_well_typed.
  - intros [Hwt ->]. now apply deserializeState_well_typed.
Qed.

(** X2: on a vector with at least 17 elements a panic of [deserializeState]
    is never an index out of range: it is the failed assertion at the first
    position whose value is not taken, and it names the type found and the
    type asserted. *)
Theorem deserializeState_long_vector_fault (vec : list any) (p : panic) :
  (17 <= List.length vec)%nat ->
  deserializeState (Slice vec) = Panic p ->
  exists i v, (i < 17)%nat /\ nth_error vec i = Some v /\ accepts i v = false
              /\ (forall j, (j < i)%nat -> ok_at vec j = true)
              /\ p = TypeAssertionError (type_of v) (want i).
Proof.
  intros Hlen. rewrite deserializeState_spec.
  destruct (first_bad vec) as [i|] eqn:E; [|discriminate].
  intros [= <-]. apply first_bad_Some in E as (Hi & Hbad & Hpre).
  unfold ok_at in Hbad. unfold fault_at.
  destruct (nth_error vec i) as [v|] eqn:Ev.
  - exists i, v. auto.
  - apply nth_error_None in Ev. lia.
Qed.

Lemma deserializeState_long_vector_fault_witness :
  exists i v, (i < 17)%nat
    /\ nth_error (set_nth 4 (Str "soon") sample_vector) i = Some v
    /\ accepts i v = false
    /\ (forall j, (j < i)%nat -> ok_at (set_nth 4 (Str "soon") sample_vector) j = true)
    /\ TypeAssertionError TString TFloat64 = TypeAssertionError (type_of v) (want i).
Proof.
  apply (deserializeState_long_vector_fault (set_nth 4 (Str "soon") sample_vector)).
  - cbn. lia.
  - reflexivity.
Defined.

(** X3: [deserializeState] never converts between types: a vector that holds,
    at any of the positions 0..16, a value that is not nil and not of the
    type asserted there makes the call panic, also at the positions whose
    helper accepts nil. *)
Theorem deserializeState_no_coercion (vec : list any) (i : nat) (v : any) :
  (i < 17)%nat ->
  nth_error vec i = Some v ->
  v <> Nil ->
  type_of v <> want i ->
  exists p, deserializeState (Slice vec) = Panic p.
Proof.
  intros Hi Hv Hnil Hty.
  assert (Hbad : ok_at vec i = false).
  { unfold ok_at. rewrite Hv. unfold accepts.
    destruct v; try contradiction;
      destruct (want i); cbn in Hty |- *; congruence. }
  destruct (deserializeState (Slice vec)) as [s|p] eqn:E; [|eauto].
  apply deserializeState_Ok_well_typed in E as [Hwt _].
  unfold well_typed in Hwt. rewrite forallb_forall in Hwt.
  rewrite Hwt in Hbad; [discriminate|]. apply in_seq. lia.
Qed.

Lemma deserializeState_no_coercion_witness :
  exists p, deserializeState
              (Slice (set_nth 1 (Float64 (f64 7 0)) sample_vector)) = Panic p.
Proof.
  apply (deserializeState_no_coercion
           (set_nth 1 (Float64 (f64 7 0)) sample_vector) 1 (Float64 (f64 7 0)));
    [lia | reflexivity | discriminate | discriminate].
Defined.

(** X4: [deserializeStates] returns a list exactly when every row is an array
    that decodes; the list then holds the State of each row, in the order of
    the rows. *)
Theorem deserializeStates_returns_iff (rows : list any) (states : list State) :
  deserializeStates rows = Ok states
  <-> forallb row_ok rows = true /\ states = map decoded_row rows.
Proof. apply deserializeStates_rows. Qed.

(** X5: [deserializeStates] panics exactly when some row fails to decode, and
    with the panic of the first such row; the rows after it play no part. *)
Theorem deserializeStates_first_failure (rows : list any) (p : panic) :
  deserializeStates rows = Panic p
  <-> exists pre row post,
        rows = pre ++ row :: post /\ forallb row_ok pre = true
        /\ deserializeState row = Panic p.
Proof. apply deserializeStates_fault. Qed.

(** X6: decoding two lists of rows one after the other is decoding them
    joined: the States are appended when both decode, and the first panic is
    the panic of the whole. *)
Theorem deserializeStates_app (l1 l2 : list any) :
  deserializeStates (l1 ++ l2)
  = (s1 <- deserializeStates l1 ;; s2 <- deserializeStates l2 ;; Ok (s1 ++ s2)).
Proof.
  induction l1 as [|v l1 IH].
  - cbn [app]. change (deserializeStates []) with (Ok (@nil State)).
    cbn [bind]. destruct (deserializeStates l2); reflexivity.
  - cbn [app]. rewrite !deserializeStates_cons, IH.
    destruct (deserializeState v) as [s|p]; cbn [bind]; [|reflexivity].
    destruct (deserializeStates l1) as [s1|p]; cbn [bind]; [|reflexivity].
    destruct (deserializeStates l2) as [s2|p]; reflexivity.
Qed.

(** X7: a state vector that comes from the JSON decoder and decodes has an
    empty [Sensors] list: the only sensors value [deserializeIntSlice] takes
    from JSON is null. *)
Theorem deserializeState_json_sensors_empty (vec : list any) (s : State) :
  forallb is_json vec = true ->
  deserializeState (Slice vec) = Ok s ->
  Sensors s = [].
Proof.
  intros Hjson H. apply deserializeState_Ok_well_typed in H as [_ ->].
  unfold decoded. cbn [Sensors].
  destruct (nth_in_or_default 12 vec Nil) as [Hin | ->]; [|reflexivity].
  rewrite forallb_forall in Hjson. specialize (Hjson _ Hin).
  destruct (nth 12 vec Nil); try reflexivity. discriminate Hjson.
Qed.

Lemma deserializeState_json_sensors_empty_witness :
  Sensors (decoded sample_vector) = [].
Proof.
  apply (deserializeState_json_sensors_empty sample_vector (decoded sample_vector));
    reflexivity.
Defined.

(** * Further properties of [Get] *)

Lemma Get_decode_Success (raw : list (string * any)) (res : Response) :
  Get_decode raw = Ok (Success res)
  <-> exists rows t,
        map_index raw "states" = Slice rows /\ forallb row_ok rows = true
        /\ map_index raw "time" = Float64 t
        /\ res = {| resp_Time := int_of_float64 t;
                    resp_States := map decoded_row rows |}.
Proof.
  unfold Get_decode.
  destruct (map_index raw "states") as [| | | |rows| |] eqn:Hs;
    try (split; [intros H; discriminate H
                | intros (rows & t & H & _); discriminate H]).
  cbn [assert_slice bind].
  destruct (deserializeStates rows) as [states|p] eqn:Hrows; cbn [bind].
  - apply deserializeStates_rows in Hrows as [Hok ->].
    destruct (map_index raw "time") as [| |t| | | |] eqn:Ht;
      try (split; [intros H; discriminate H
                  | intros (rows' & t' & _ & _ & H & _); discriminate H]).
    cbn [assert_float64 bind]. split.
    + intros [= <-]. exists rows, t. auto.
    + intros (rows' & t' & [= <-] & _ & [= <-] & ->). reflexivity.
  - split; [discriminate|].
    intros (rows' & t' & [= <-] & Hok & _).
    assert (Panic p = Ok (map decoded_row rows)) as Habs
        by (rewrite <- Hrows; apply deserializeStates_rows; auto).
    discriminate Habs.
Qed.

Lemma Get_decode_total (raw : list (string * any)) :
  (exists res, Get_decode raw = Ok (Success res)) \/ (exists p, Get_decode raw = Panic p).
Proof.
  unfold Get_decode.
  destruct (assert_slice (map_index raw "states")) as [rows|p]; cbn [bind]; [|eauto].
  destruct (deserializeStates rows) as [states|p]; cbn [bind]; [|eauto].
  destruct (assert_float64 (map_index raw "time")) as [t|p]; cbn [bind]; eauto.
Qed.

(** X8: [Get] returns a Response exactly when the transport answers with
    status 200 and a JSON object whose [states] is an array of rows that all
    decode and whose [time] is a number; the Response holds the integer value
    of [time] and the State of each row, in order. *)
Theorem Get_success_iff
    (http_Get : string -> http_result) (req : option Request) (res : Response) :
  Get http_Get req = Ok (Success res)
  <-> exists status raw rows t,
        http_Get (URL_String (Get_url req)) = HttpResponse 200 status (BodyObject raw)
        /\ map_index raw "states" = Slice rows /\ forallb row_ok rows = true
        /\ map_index raw "time" = Float64 t
        /\ res = {| resp_Time := int_of_float64 t;
                    resp_States := map decoded_row rows |}.
Proof.
  unfold Get.
  destruct (http_Get (URL_String (Get_url req))) as [err|code status body] eqn:Hhttp.
  - split; [discriminate|]. intros (? & ? & ? & ? & H & _). discriminate H.
  - destruct (Z.eqb_spec code 200) as [->|Hne]; cbn [negb].
    + destruct body as [err|raw].
      * split; [discriminate|]. intros (? & ? & ? & ? & H & _). discriminate H.
      * rewrite Get_decode_Success. split.
        -- intros (rows & t & H). exists status, raw, rows, t. auto.
        -- intros (status' & raw' & rows & t & [= <- <-] & H). eauto.
    + split; [discriminate|]. intros (? & ? & ? & ? & [= -> _ _] & _). contradiction.
Qed.

(** X9: [Get] returns an error value in exactly three cases: the transport
    failed, and the error is the transport's; the status is not 200, and the
    error names the URL requested, query included, and the status text,
    whatever the body holds; the JSON decoder returned an error, and the
    error is the decoder's.  Once the decoder has returned nil nothing is
    reported as an error value. *)
Theorem Get_failure_iff
    (http_Get : string -> http_result) (req : option Request) (e : string) :
  Get http_Get req = Ok (Failure e)
  <-> http_Get (URL_String (Get_url req)) = TransportError e
      \/ (exists code status body,
             http_Get (URL_String (Get_url req)) = HttpResponse code status body
             /\ code <> 200
             /\ e = ("GET " ++ URL_String (Get_url req) ++ " not OK: " ++ status)%string)
      \/ (exists status,
             http_Get (URL_String (Get_url req))
             = HttpResponse 200 status (BodyInvalid e)).
Proof.
  unfold Get.
  destruct (http_Get (URL_String (Get_url req))) as [err|code status body].
  - split.
    + intros [= ->]. now left.
    + intros [[= ->]|[(? & ? & ? & H & _)|(? & H)]]; [reflexivity | |]; discriminate H.
  - destruct (Z.eqb_spec code 200) as [->|Hne]; cbn [negb].
    + destruct body as [err|raw].
      * split.
        -- intros [= ->]. right. right. now exists status.
        -- intros [H|[(? & ? & ? & [= <- _ _] & Hne & _)|(? & [= _ ->])]];
             [discriminate H | contradiction | reflexivity].
      * split.
        -- intros H. destruct (Get_decode_total raw) as [[res E]|[p E]];
             rewrite E in H; discriminate H.
        -- intros [H|[(? & ? & ? & [= <- _ _] & Hne & _)|(? & H)]];
             [discriminate H | contradiction | discriminate H].
    + split.
      * intros [= <-]. right. left. exists code, status, body. auto.
      * intros [H|[(? & ? & ? & [= <- <- _] & _ & ->)|(? & [= -> _ _])]];
          [discriminate H | reflexivity | contradiction].
Qed.

(** X11: no partial results: when one row of [states] does not decode, [Get]
    panics, whatever the other rows and [time] are. *)
Theorem Get_bad_row_fails_whole
    (http_Get : string -> http_result) (req : option Request)
    (status : string) (raw : list (string * any)) (rows : list any) (row : any) :
  http_Get (URL_String (Get_url req)) = HttpResponse 200 status (BodyObject raw) ->
  map_index raw "states" = Slice rows ->
  In row rows ->
  row_ok row = false ->
  exists p, Get http_Get req = Panic p.
Proof.
  intros Hhttp Hstates Hin Hbad.
  unfold Get. rewrite Hhttp. cbn [Z.eqb Pos.eqb negb].
  unfold Get_decode. rewrite Hstates. cbn [assert_slice bind].
  destruct (deserializeStates rows) as [states|p] eqn:E; cbn [bind]; [|eauto].
  apply deserializeStates_rows in E as [Hok _].
  rewrite forallb_forall in Hok. rewrite (Hok _ Hin) in Hbad. discriminate.
Qed.

Lemma Get_bad_row_fails_whole_witness :
  exists p, Get (serve body_bad_second_row) None = Panic p.
Proof.
  apply (Get_bad_row_fails_whole (serve body_bad_second_row) None "200 OK"
           body_bad_second_row
           [Slice sample_vector; Slice (set_nth 4 (Str "soon") sample_vector)]
           (Slice (set_nth 4 (Str "soon") sample_vector)));
    [reflexivity | reflexivity | cbn; tauto | reflexivity].
Defined.



(** * Further properties of the encoder *)

Lemma append_self_nil (a b : string) : (a ++ b)%string = a -> b = "".
Proof.
  induction a as [|c a IH]; cbn; [trivial|]. intros [= H]. now apply IH.
Qed.

Lemma concat_settings_nil (ps : list (string * string)) :
  String.concat "&" (map setting ps) = "" -> ps = [].
Proof.
  destruct ps as [|kv ps]; [reflexivity|]. cbn [map String.concat].
  intros H. exfalso.
  destruct (map setting ps).
  - now apply setting_nonempty in H.
  - revert H. apply app_nonempty_l, setting_nonempty.
Qed.

Lemma serializeQueryParams_nil_iff (req : Request) :
  serializeQueryParams req = "" <-> no_filter req.
Proof.
  unfold no_filter. split.
  - rewrite serializeQueryParams_shape. intros H.
    apply concat_settings_nil in H. unfold encoded_pairs in H.
    apply app_eq_nil in H as [Hi H]. apply app_eq_nil in H as [Hb Ht].
    repeat split.
    + destruct (Z.eqb_spec (req_Time req) 0); [assumption | discriminate].
    + destruct (req_Icao24 req); [reflexivity | discriminate].
    + destruct (req_Bbox req); [discriminate | reflexivity].
  - intros (Ht & Hl & Hb). unfold serializeQueryParams. rewrite Ht, Hl, Hb. reflexivity.
Qed.

(** X13: the URL [Get] requests is the endpoint, followed by ["?"] and the
    query when the query is not empty; the query is empty, and the URL the
    one of a nil request, exactly when the request sets no filter. *)
Theorem Get_url_query (req : Request) :
  URL_String (Get_url (Some req))
  = (endpoint ++ match serializeQueryParams req with
                 | EmptyString => ""
                 | q => "?" ++ q
                 end)%string
  /\ URL_String (Get_url None) = endpoint
  /\ (serializeQueryParams req = "" <-> no_filter req)
  /\ (URL_String (Get_url (Some req)) = URL_String (Get_url None) <-> no_filter req).
Proof.
  assert (Hurl : URL_String (Get_url (Some req))
                 = (endpoint ++ match serializeQueryParams req with
                                | EmptyString => ""
                                | q => "?" ++ q
                                end)%string).
  { unfold URL_String, Get_url. cbn [RawQuery url_base endpointFor].
    destruct (serializeQueryParams req); reflexivity. }
  split; [exact Hurl|]. split; [reflexivity|].
  split; [apply serializeQueryParams_nil_iff|].
  rewrite Hurl, <- serializeQueryParams_nil_iff.
  change (URL_String (Get_url None)) with endpoint. split.
  - intros H. apply append_self_nil in H.
    destruct (serializeQueryParams req); [reflexivity | discriminate].
  - intros ->. reflexivity.
Qed.

Lemma map_fst_icao24 (l : list string) :
  map fst (map (fun icao24 => ("icao24", url.QueryEscape icao24)) l)
  = repeat "icao24" (List.length l).
Proof. induction l as [|x l IH]; cbn; [reflexivity | now rewrite IH]. Qed.

(** X14: the settings of the query are written sorted by key, not in the
    order of the code: one [icao24] setting for each address, in request
    order and escaped, then [lamax], [lamin], [lomax], [lomin] when a box is
    present, then [time] when it is not 0; no byte of an address adds or
    removes a setting. *)
Theorem serializeQueryParams_settings (req : Request) :
  map fst (url.raw_pairs (serializeQueryParams req)) = expected_keys req
  /\ map snd (filter (fun kv => String.eqb (fst kv) "icao24")
                     (url.raw_pairs (serializeQueryParams req)))
     = map url.QueryEscape (req_Icao24 req)
  /\ List.length (url.raw_pairs (serializeQueryParams req))
     = (List.length (req_Icao24 req)
        + (match req_Bbox req with Some _ => 4 | None => 0 end)
        + (if (req_Time req =? 0)%Z then 0 else 1))%nat.
Proof.
  rewrite raw_pairs_serializeQueryParams. unfold encoded_pairs, expected_keys.
  repeat split.
  - rewrite !map_app, map_fst_icao24.
    destruct (req_Bbox req); destruct (req_Time req =? 0); reflexivity.
  - rewrite !filter_app, !map_app.
    assert (Hi : forall l,
               map snd (filter (fun kv : string * string => String.eqb (fst kv) "icao24")
                               (map (fun icao24 => ("icao24", url.QueryEscape icao24)) l))
               = map url.QueryEscape l).
    { induction l as [|x l IH]; cbn; [reflexivity | now rewrite IH]. }
    rewrite Hi.
    destruct (req_Bbox req); destruct (req_Time req =? 0); cbn;
      now rewrite app_nil_r.
  - rewrite !length_app, length_map.
    destruct (req_Bbox req); destruct (req_Time req =? 0); cbn; lia.
Qed.

Lemma all_query_bytes_app (a b : string) :
  all_query_bytes (a ++ b) = all_query_bytes a && all_query_bytes b.
Proof.
  induction a as [|c a IH]; cbn; [reflexivity|]. now rewrite IH, andb_assoc.
Qed.

Lemma escape_char_query_bytes (c : ascii) : all_query_bytes (escape_char c) = true.
Proof. each_byte c; reflexivity. Qed.

Lemma QueryEscape_query_bytes (s : string) :
  all_query_bytes (url.QueryEscape s) = true.
Proof.
  induction s as [|c s IH]; [reflexivity|].
  now rewrite QueryEscape_cons, all_query_bytes_app, escape_char_query_bytes, IH.
Qed.

Lemma concat_query_bytes (segs : list string) :
  Forall (fun s => all_query_bytes s = true) segs ->
  all_query_bytes (String.concat "&" segs) = true.
Proof.
  induction 1 as [|s segs Hs _ IH]; [reflexivity|].
  cbn [String.concat]. destruct segs as [|s' segs]; [exact Hs|].
  rewrite !all_query_bytes_app, Hs, IH. reflexivity.
Qed.

(** X15: whatever bytes the addresses of a request hold, its query is made
    of unreserved characters, the escape marks ["+"] and ["%"] and the
    separators ["&"] and ["="] only. *)
Theorem serializeQueryParams_query_bytes (req : Request) :
  all_query_bytes (serializeQueryParams req) = true.
Proof.
  rewrite serializeQueryParams_shape, encoded_pairs_escape.
  apply concat_query_bytes, Forall_map, Forall_map, Forall_forall.
  intros [k v] _. unfold setting, escape_pair. cbn [fst snd].
  rewrite !all_query_bytes_app, !QueryEscape_query_bytes. reflexivity.
Qed.

Lemma Itoa_inj (a b : Z) : strconv.Itoa a = strconv.Itoa b -> a = b.
Proof.
  unfold strconv.Itoa. intros H.
  assert (Hnn : forall z, Z.to_int z <> Decimal.Pos Decimal.Nil
                          /\ Z.to_int z <> Decimal.Neg Decimal.Nil).
  { intros [|p|p]; cbn; split; try discriminate;
      intros [= E]; now apply DecimalPos.Unsigned.to_uint_nonnil in E. }
  apply (f_equal NilZero.int_of_string) in H.
  rewrite !NilZero.isi in H by apply Hnn.
  injection H as H. now apply DecimalZ.to_int_inj.
Qed.

Lemma Get_expected_icao24 (req : Request) :
  url.Get (expected_values req) "icao24" = req_Icao24 req.
Proof.
  unfold expected_values.
  destruct (req_Icao24 req); destruct (req_Bbox req);
    destruct (req_Time req =? 0); reflexivity.
Qed.

Lemma Get_expected_time (req : Request) :
  url.Get (expected_values req) "time"
  = if req_Time req =? 0 then [] else [strconv.Itoa (req_Time req)].
Proof.
  unfold expected_values.
  destruct (req_Icao24 req); destruct (req_Bbox req);
    destruct (req_Time req =? 0); reflexivity.
Qed.

Lemma Get_expected_bound (req : Request) (key : string) :
  In key ["lamin"; "lomin"; "lamax"; "lomax"] ->
  url.Get (expected_values req) key
  = match req_Bbox req with
    | Some bbox =>
        [formatDegrees
           (if String.eqb key "lamin" then Lamin bbox
            else if String.eqb key "lomin" then Lomin bbox
            else if String.eqb key "lamax" then Lamax bbox
            else Lomax bbox)]
    | None => []
    end.
Proof.
  intros Hk. unfold expected_values. cbn in Hk.
  destruct Hk as [<-|[<-|[<-|[<-|[]]]]];
    destruct (req_Icao24 req); destruct (req_Bbox req);
    destruct (req_Time req =? 0); reflexivity.
Qed.

(** X16: the query keeps what the request sets: two requests with the same
    query have the same [Time], the same addresses in the same order, a box
    both or neither, and the same four-decimal text for each bound. *)
Theorem serializeQueryParams_injective (r1 r2 : Request) :
  serializeQueryParams r1 = serializeQueryParams r2 ->
  req_Time r1 = req_Time r2
  /\ req_Icao24 r1 = req_Icao24 r2
  /\ option_map (fun b => map formatDegrees [Lamin b; Lomin b; Lamax b; Lomax b])
                (req_Bbox r1)
     = option_map (fun b => map formatDegrees [Lamin b; Lomin b; Lamax b; Lomax b])
                  (req_Bbox r2).
Proof.
  intros H.
  assert (Hv : expected_values r1 = expected_values r2).
  { pose proof (ParseQuery_serializeQueryParams r1) as H1.
    pose proof (ParseQuery_serializeQueryParams r2) as H2.
    rewrite H in H1. congruence. }
  repeat split.
  - pose proof (Get_expected_time r1) as H1. rewrite Hv, Get_expected_time in H1.
    destruct (Z.eqb_spec (req_Time r1) 0) as [E1|_];
      destruct (Z.eqb_spec (req_Time r2) 0) as [E2|_];
      try discriminate H1; [congruence|].
    injection H1 as H1. symmetry. now apply Itoa_inj.
  - rewrite <- (Get_expected_icao24 r1), Hv. apply Get_expected_icao24.
  - assert (Hb : forall key, In key ["lamin"; "lomin"; "lamax"; "lomax"] ->
                   url.Get (expected_values r1) key = url.Get (expected_values r2) key)
      by (intros; now rewrite Hv).
    pose proof (Hb "lamin" ltac:(cbn; tauto)) as Ha.
    pose proof (Hb "lomin" ltac:(cbn; tauto)) as Hbo.
    pose proof (Hb "lamax" ltac:(cbn; tauto)) as Hc.
    pose proof (Hb "lomax" ltac:(cbn; tauto)) as Hd.
    rewrite !Get_expected_bound in Ha, Hbo, Hc, Hd by (cbn; tauto).
    cbn [String.eqb Ascii.eqb Bool.eqb] in Ha, Hbo, Hc, Hd.
    destruct (req_Bbox r1), (req_Bbox r2); cbn [option_map map];
      try discriminate Ha; [|reflexivity].
    congruence.
Qed.

Lemma serializeQueryParams_injective_witness :
  req_Time sample_request = req_Time sample_request
  /\ req_Icao24 sample_request = req_Icao24 sample_request
  /\ option_map (fun b => map formatDegrees [Lamin b; Lomin b; Lamax b; Lomax b])
                (req_Bbox sample_request)
     = option_map (fun b => map formatDegrees [Lamin b; Lomin b; Lamax b; Lomax b])
                  (req_Bbox sample_request).
Proof.
  apply (serializeQueryParams_injective sample_request sample_request). reflexivity.
Defined.
